(** * Sales bot: the watermark polling engine of [bot.py]

    A shallow embedding of [src/bot.py] and the properties of its poll cycle.

    - Feed records are the decoded JSON values the HTTP client hands back,
      read with [dict.get] exactly where the source reads them.
    - Timestamps are Python [datetime] values: a wall-clock reading in
      microseconds plus an optional UTC offset (absent for a naive value).
    - Python exceptions are the [Raise] results of an error monad; database,
      feed, channel and clock are an explicit world with a trace of the calls
      made, and an environment that decides what the outside answers. *)

From Stdlib Require Import ZArith String Ascii DecimalString Lia.
From stdpp Require Import gmap strings list sorting.

Open Scope string_scope.
Open Scope list_scope.
Open Scope Z_scope.

(** ** Exceptions and results *)

Inductive exn :=
| AttributeError   (* method looked up on a value that has none *)
| TypeError
| ValueError
| OverflowError
| KeyError
| IndexError
| HTTPException.   (* discord.py: the message could not be delivered *)

Inductive result (A : Type) :=
| Ok (a : A)
| Raise (e : exn).
Arguments Ok {A} a.
Arguments Raise {A} e.

#[export] Instance result_ret : MRet result := @Ok.
#[export] Instance result_bind : MBind result := fun A B k r =>
  match r with Ok a => k a | Raise e => Raise e end.

Fixpoint mapR {A B} (f : A -> result B) (l : list A) : result (list B) :=
  match l with
  | [] => Ok []
  | x :: t => y ← f x; ys ← mapR f t; Ok (y :: ys)
  end.

#[local] Set Warnings "-register-all".

(** ** JSON values, as [response.json()] decodes them

    Numbers are integers: every numeric field of the feed (price,
    inscription number) is an integer count.  A [JObj] is a Python dict,
    whose keys are unique. *)

Inductive json :=
| JNull
| JBool (b : bool)
| JInt (z : Z)
| JStr (s : string)
| JArr (l : list json)
| JObj (kvs : list (string * json)).

Fixpoint assoc (k : string) (kvs : list (string * json)) : option json :=
  match kvs with
  | [] => None
  | (k', v) :: t => if String.eqb k k' then Some v else assoc k t
  end.

(** [x.get(k, default)]: only a dict has the method. *)
Definition py_get (x : json) (k : string) (default : json) : result json :=
  match x with
  | JObj kvs => Ok (match assoc k kvs with Some v => v | None => default end)
  | _ => Raise AttributeError
  end.

(** Python truth value, as [not v] and [if v] compute it. *)
Definition truthy (v : json) : bool :=
  match v with
  | JNull => false
  | JBool b => b
  | JInt z => negb (z =? 0)
  | JStr s => negb (String.eqb s "")
  | JArr l => match l with [] => false | _ => true end
  | JObj l => match l with [] => false | _ => true end
  end.

(** [v == "bought"] *)
Definition eq_str (v : json) (s : string) : bool :=
  match v with JStr s' => String.eqb s' s | _ => false end.

(** Iterating a JSON value, as [sorted(v, ...)] does first: a list yields
    its elements, a dict its keys, a string its characters; anything else is
    not iterable. *)
Definition py_iter (v : json) : result (list json) :=
  match v with
  | JArr l => Ok l
  | JObj kvs => Ok (map (fun kv => JStr (fst kv)) kvs)
  | JStr s => Ok (map (fun c => JStr (String c EmptyString)) (list_ascii_of_string s))
  | _ => Raise TypeError
  end.

(** ** Strings *)

(** [s.replace("Z", "+00:00")]: every occurrence is replaced. *)
Fixpoint replace_Z (s : string) : string :=
  match s with
  | EmptyString => EmptyString
  | String c t =>
      if Ascii.eqb c "Z"%char then "+00:00" +:+ replace_Z t
      else String c (replace_Z t)
  end.

(** [s[:4]] and [s[-4:]] (addresses are ASCII: a character is a byte) *)
Definition first4 (s : string) : string :=
  String.substring 0 4 s.
Definition last4 (s : string) : string :=
  let n := String.length s in String.substring (n - 4) 4 s.

(** [a[:4] + "..." + a[-4:]]: a string is sliced; a list is sliced and then
    cannot be concatenated with a string; no other JSON value can be sliced
    (a dict raises TypeError too, KeyError from Python 3.12 on). *)
Definition shorten (a : json) : result string :=
  match a with
  | JStr s => Ok (first4 s +:+ "..." +:+ last4 s)
  | _ => Raise TypeError
  end.

(** ** datetime *)

Record datetime := mkdt {
  wall : Z;                 (* microseconds on the wall clock since 1970-01-01T00:00:00 *)
  utcoffset : option Z      (* tzinfo: UTC offset in microseconds; None for a naive value *)
}.

Definition usec_per_sec : Z := 1000000.
Definition usec_per_day : Z := 86400 * usec_per_sec.

(** [timedelta(hours=24)] in microseconds. *)
Definition timedelta_24h : Z := 24 * 3600 * usec_per_sec.

(** Days from 1970-01-01 to the given proleptic Gregorian date. *)
Definition days_from_civil (y m d : Z) : Z :=
  let y' := if m <=? 2 then y - 1 else y in
  let era := y' / 400 in
  let yoe := y' - era * 400 in
  let mp := (m + 9) mod 12 in
  let doy := (153 * mp + 2) / 5 + d - 1 in
  let doe := yoe * 365 + yoe / 4 - yoe / 100 + doy in
  era * 146097 + doe - 719468.

Definition is_leap (y : Z) : bool :=
  ((y mod 4 =? 0) && negb (y mod 100 =? 0)) || (y mod 400 =? 0).

Definition days_in_month (y m : Z) : Z :=
  if m =? 2 then (if is_leap y then 29 else 28)
  else if (m =? 4) || (m =? 6) || (m =? 9) || (m =? 11) then 30
  else 31.

(** An aware value in UTC read back from its instant. *)
Definition utc (instant : Z) : datetime :=
  {| wall := instant; utcoffset := Some 0 |}.

(** [datetime.min.replace(tzinfo=timezone.utc)]: 0001-01-01T00:00:00+00:00. *)
Definition datetime_min_utc : datetime :=
  utc (days_from_civil 1 1 1 * usec_per_day).

Definition MIN_INSTANT : Z := Eval cbv in wall datetime_min_utc.

(** The number an ordering compares: the instant of an aware value, the wall
    clock of a naive one. *)
Definition ordinal (d : datetime) : Z :=
  match utcoffset d with Some off => wall d - off | None => wall d end.

Definition same_kind (a b : datetime) : bool :=
  match utcoffset a, utcoffset b with
  | Some _, Some _ | None, None => true
  | _, _ => false
  end.

(** [a - b]: a timedelta in microseconds; mixing naive and aware raises. *)
Definition dt_sub (a b : datetime) : result Z :=
  if same_kind a b then Ok (ordinal a - ordinal b) else Raise TypeError.

(** [a <= b] and [a > b], with the same restriction. *)
Definition dt_le (a b : datetime) : result bool :=
  if same_kind a b then Ok (ordinal a <=? ordinal b) else Raise TypeError.
Definition dt_gt (a b : datetime) : result bool :=
  if same_kind a b then Ok (ordinal b <? ordinal a) else Raise TypeError.

(** [a != b] never raises: a naive and an aware value are simply unequal. *)
Definition dt_ne (a b : datetime) : bool :=
  if same_kind a b then negb (ordinal a =? ordinal b) else true.

(** ** [datetime.fromisoformat]

    The documented grammar of Python 3.7 to 3.10,
    [YYYY-MM-DD[*HH[:MM[:SS[.fff[fff]]]][+HH:MM[:SS[.ffffff]]]]], with the
    range checks of the [datetime] and [timezone] constructors.  [None] is
    the ValueError. *)

Definition digit (c : ascii) : option Z :=
  let n := Z.of_N (N_of_ascii c) in
  if (48 <=? n) && (n <=? 57) then Some (n - 48) else None.

(** [n] decimal digits at the head of [cs]: their value and the rest. *)
Fixpoint digits (n : nat) (acc : Z) (cs : list ascii) : option (Z * list ascii) :=
  match n with
  | O => Some (acc, cs)
  | S n' =>
      match cs with
      | c :: t => d ← digit c; digits n' (10 * acc + d) t
      | [] => None
      end
  end.

Definition expect (c : ascii) (cs : list ascii) : option (list ascii) :=
  match cs with
  | c' :: t => if Ascii.eqb c c' then Some t else None
  | [] => None
  end.

(** [.fff] or [.ffffff] up to the end of [cs], in microseconds. *)
Definition fraction (cs : list ascii) : option Z :=
  match length cs with
  | 3%nat => '(v, _) ← digits 3 0 cs; Some (v * 1000)
  | 6%nat => '(v, _) ← digits 6 0 cs; Some v
  | _ => None
  end.

(** [HH[:MM[:SS[.fff[fff]]]]] filling all of [cs]: hour, minute, second,
    microsecond. *)
Definition hh_mm_ss_ff (cs : list ascii) : option (Z * Z * Z * Z) :=
  '(h, r) ← digits 2 0 cs;
  match r with
  | [] => Some (h, 0, 0, 0)
  | _ =>
      r ← expect ":" r; '(m, r) ← digits 2 0 r;
      match r with
      | [] => Some (h, m, 0, 0)
      | _ =>
          r ← expect ":" r; '(s, r) ← digits 2 0 r;
          match r with
          | [] => Some (h, m, s, 0)
          | _ => r ← expect "." r; us ← fraction r; Some (h, m, s, us)
          end
      end
  end.

(** The time string is cut at its first sign character. *)
Fixpoint split_tz (cs : list ascii) : list ascii * option (bool * list ascii) :=
  match cs with
  | [] => ([], None)
  | c :: t =>
      if Ascii.eqb c "+" then ([], Some (false, t))
      else if Ascii.eqb c "-" then ([], Some (true, t))
      else let '(tm, tz) := split_tz t in (c :: tm, tz)
  end.

Definition parse_date (cs : list ascii) : option (Z * list ascii) :=
  '(y, r) ← digits 4 0 cs; r ← expect "-" r;
  '(m, r) ← digits 2 0 r; r ← expect "-" r;
  '(d, r) ← digits 2 0 r;
  if (1 <=? y) && (1 <=? m) && (m <=? 12) && (1 <=? d) && (d <=? days_in_month y m)
  then Some (days_from_civil y m d, r) else None.

(** The offset is written [HH:MM], [HH:MM:SS] or [HH:MM:SS.ffffff]. *)
Definition tz_length_ok (z : list ascii) : bool :=
  match length z with
  | 5%nat | 8%nat | 15%nat => true
  | _ => false
  end.

Definition parse_time (cs : list ascii) : option (Z * option Z) :=
  let '(tm, tz) := split_tz cs in
  '(h, m, s, us) ← hh_mm_ss_ff tm;
  if (h <? 24) && (m <? 60) && (s <? 60) then
    let t := ((h * 60 + m) * 60 + s) * usec_per_sec + us in
    match tz with
    | None => Some (t, None)
    | Some (neg, z) =>
        '(zh, zm, zs, zus) ← (if tz_length_ok z then hh_mm_ss_ff z else None);
        let off := ((zh * 60 + zm) * 60 + zs) * usec_per_sec + zus in
        if off <? usec_per_day then Some (t, Some (if neg then - off else off))
        else None
    end
  else None.

Definition fromisoformat (s : string) : option datetime :=
  '(days, r) ← parse_date (list_ascii_of_string s);
  match r with
  | [] => Some (mkdt (days * usec_per_day) None)
  | _ :: r =>
      '(t, off) ← parse_time r;
      Some (mkdt (days * usec_per_day + t) off)
  end.

(** ** float: [raw_price / 100000000] and [f"{price_doge:.2f}"]

    A finite binary64 value is [fmant * 2 ^ fexp].  True division of
    integers is correctly rounded (ties to even), and so is the conversion to
    two decimals. *)

Record float := mkfloat { fmant : Z; fexp : Z }.

(** [n / d] rounded to the nearest integer, ties to even ([0 < d]). *)
Definition div_rne (n d : Z) : Z :=
  let q := n / d in
  let r := n mod d in
  if 2 * r <? d then q
  else if d <? 2 * r then q + 1
  else if Z.even q then q else q + 1.

(** [a / b] for Python ints, [0 < b]: OverflowError beyond the binary64
    range.  A non-zero quotient of magnitude at least [2 ^ -1022] has 53
    significant bits; [b] is [10 ^ 8] here, so nothing smaller arises. *)
Definition int_truediv (a b : Z) : result float :=
  if a =? 0 then Ok (mkfloat 0 0) else
  let n := Z.abs a in
  let l := Z.log2 n - Z.log2 b in
  (* l' = floor (log2 (n / b)) *)
  let l' := if (l >=? 0) then (if b * 2 ^ l <=? n then l else l - 1)
            else (if b <=? n * 2 ^ (- l) then l else l - 1) in
  let e := l' - 52 in
  let m := if e >=? 0 then div_rne n (b * 2 ^ e) else div_rne (n * 2 ^ (- e)) b in
  if 2 ^ 1024 <=? m * 2 ^ (Z.max e 0) then Raise OverflowError
  else Ok (mkfloat (Z.sgn a * m) e).

(** [raw_price / 100000000]: an int or a bool (an int in Python) divides;
    None, a string, a list or a dict raises TypeError. *)
Definition price_doge (raw_price : json) : result float :=
  match raw_price with
  | JInt z => int_truediv z 100000000
  | JBool b => int_truediv (if b then 1 else 0) 100000000
  | _ => Raise TypeError
  end.

Definition dec (n : Z) : string :=
  NilEmpty.string_of_uint (N.to_uint (Z.to_N n)).

(** [f"{x:.2f}"] *)
Definition format_2f (x : float) : string :=
  let a := Z.abs (fmant x) in
  let cents := if fexp x >=? 0 then a * 2 ^ fexp x * 100
               else div_rne (a * 100) (2 ^ (- fexp x)) in
  (if fmant x <? 0 then "-" else "") +:+
  dec (cents / 100) +:+ "." +:+ dec (cents / 10 mod 10) +:+ dec (cents mod 10).

(** ** Configuration *)

Record Config := {
  api_url : string;
  channel_id : Z;
  color : Z;
  hashtag : string
}.

Definition dopedoges : Config :=
  {| api_url := "https://api.doggy.market/listings/nfts/dopedoges/orders";
     channel_id := 1355537264800829511;
     color := 0xFF4500;
     hashtag := "#DopeDogeVibes" |}.

Definition COLLECTIONS : list (string * Config) :=
  [ ("dopedoges", dopedoges) ].

Fixpoint lookup_config (c : string) (l : list (string * Config)) : option Config :=
  match l with
  | [] => None
  | (k, cfg) :: t => if String.eqb c k then Some cfg else lookup_config c t
  end.

(** [COLLECTIONS[collection]] *)
Definition config (c : string) : result Config :=
  match lookup_config c COLLECTIONS with
  | Some cfg => Ok cfg
  | None => Raise KeyError
  end.

(** ** The world: database, channel, console

    [Embed] keeps the fields of the alert that are computed from the record
    by operations that can fail.  Title, link, description, inscription
    number, thumbnail and footer are string formatting of the same record
    that cannot raise; they are left out. *)

Record Embed := {
  embed_color : Z;
  sold_for : string;       (* "Sold for" *)
  buyer_field : string;    (* "Buyer" *)
  seller_field : string    (* "Seller" *)
}.

(** The lines [print] writes, with the values they show that matter here. *)
Inductive Log :=
| LogLoadError (c : string)
| LogSaved (c : string) (t : datetime)
| LogSaveError (c : string)
| LogFetched (c : string)
| LogFetchHTTP (c : string) (status : Z)
| LogFetchError (c : string)
| LogPosted (c : string) (price : string)
| LogNoChannel (c : string)
| LogCurrentTime (c : string) (last : datetime)
| LogSkippedOlder (c : string) (n : nat)
| LogSkippedProcessed (c : string) (n : nat)
| LogUpdated (c : string) (t : datetime)
| LogNoNewSales (c : string)
| LogTestMessage (c : string).

(** What the program does to the outside, in order. *)
Inductive Event :=
| Load (c : string)                     (* load_last_sale_timestamp called *)
| Save (c : string) (t : datetime)      (* save_last_sale_timestamp called *)
| Fetch (c : string)                    (* fetch_sales called *)
| Notify (c : string) (sale : json)     (* post_sale_to_discord called *)
| ChannelSend (channel : Z) (e : Embed) (* channel.send returned: the alert is out *)
| CtxSend (msg : string)                (* ctx.send returned *)
| Print (l : Log).

(** Table [sale_timestamps]: collection to [last_sale_timestamp], a
    nullable [timestamptz] held as its instant in microseconds. *)
Record World := {
  db : gmap string (option Z);
  trace : list Event
}.

Inductive Response :=
| ConnectionFailed                            (* the request raised *)
| Answer (status : Z) (body : option json).   (* body: [response.json()], None when decoding raises *)

(** What the outside answers during one run. *)
Record Env := {
  get_channel : Z -> bool;                (* [bot.get_channel(id)] is not None *)
  load_fails : string -> bool;            (* the SELECT raises *)
  save_fails : string -> bool;            (* the upsert raises *)
  http_get : string -> Response;
  utcnow : string -> Z;                   (* [datetime.now(timezone.utc)] of line 144, per collection *)
  send_fails : list Event -> Embed -> bool;  (* [channel.send] raises, given what happened so far *)
  ctx_send_fails : list Event -> bool
}.

(** ** The monad of the coroutines: state, trace and exceptions *)

Definition M (A : Type) : Type := World -> result A * World.

#[export] Instance M_ret : MRet M := fun A a w => (Ok a, w).
#[export] Instance M_bind : MBind M := fun A B k m w =>
  match m w with
  | (Ok a, w') => k a w'
  | (Raise e, w') => (Raise e, w')
  end.

Definition lift {A} (r : result A) : M A := fun w => (r, w).

Definition emit (e : Event) : M unit :=
  fun w => (Ok tt, {| db := db w; trace := trace w ++ [e] |}).

Definition print (l : Log) : M unit := emit (Print l).

Fixpoint foldM {A B} (f : A -> B -> M A) (a : A) (l : list B) : M A :=
  match l with
  | [] => mret a
  | x :: t => a' ← f a x; foldM f a' t
  end.

(** ** The watermark store *)

Definition stored (d : gmap string (option Z)) (c : string) : datetime :=
  match d !! c with
  | Some (Some t) => utc t
  | _ => datetime_min_utc
  end.

Definition load_last_sale_timestamp (env : Env) (c : string) : M datetime :=
  _ ← emit (Load c);
  if load_fails env c then
    _ ← print (LogLoadError c); mret datetime_min_utc
  else
    fun w => (Ok (stored (db w) c), w).

(** The upsert stores the instant of [t]; a cycle only ever saves a
    timestamp that carries a UTC offset. *)
Definition upsert (c : string) (t : datetime) : M unit :=
  fun w => (Ok tt, {| db := <[c := Some (ordinal t)]> (db w); trace := trace w |}).

Definition save_last_sale_timestamp (env : Env) (c : string) (t : datetime) : M unit :=
  _ ← emit (Save c t);
  if save_fails env c then print (LogSaveError c)
  else _ ← upsert c t; print (LogSaved c t).

(** ** The feed

    Every failure inside the [try] ends in a printed line and the empty
    list; a body that is not a dict fails at [data.get], after the success
    line was printed. *)

Definition fetch_sales (env : Env) (c : string) : M json :=
  cfg ← lift (config c);
  _ ← emit (Fetch c);
  match http_get env (api_url cfg) with
  | Answer status (Some data) =>
      if status =? 200 then
        _ ← print (LogFetched c);
        match py_get data "data" (JArr []) with
        | Ok v => mret v
        | Raise _ => _ ← print (LogFetchError c); mret (JArr [])
        end
      else _ ← print (LogFetchHTTP c status); mret (JArr [])
  | Answer status None =>
      if status =? 200 then _ ← print (LogFetchError c); mret (JArr [])
      else _ ← print (LogFetchHTTP c status); mret (JArr [])
  | ConnectionFailed => _ ← print (LogFetchError c); mret (JArr [])
  end.

(** ** Reading a record's date and sorting by it *)

Definition py_replace_Z (v : json) : result string :=
  match v with
  | JStr s => Ok (replace_Z s)
  | _ => Raise AttributeError
  end.

(** [datetime.fromisoformat(x.get("date", "1970-01-01T00:00:00.000Z").replace("Z", "+00:00"))] *)
Definition sale_date (sale : json) : result datetime :=
  s ← py_get sale "date" (JStr "1970-01-01T00:00:00.000Z");
  s' ← py_replace_Z s;
  match fromisoformat s' with
  | Some d => Ok d
  | None => Raise ValueError
  end.

Definition is_aware (d : datetime) : bool :=
  match utcoffset d with Some _ => true | None => false end.

(** Stable insertion into a list ordered by key: ascending, or descending
    for [reverse=True]; equal keys keep their original order both ways. *)
Fixpoint insert_by {A} (reverse : bool) (k : Z) (x : A) (l : list (Z * A)) : list (Z * A) :=
  match l with
  | [] => [(k, x)]
  | (k', y) :: t =>
      if (if reverse then k' <=? k else k <=? k') then (k, x) :: l
      else (k', y) :: insert_by reverse k x t
  end.

Fixpoint sort_by {A} (reverse : bool) (l : list (Z * A)) : list (Z * A) :=
  match l with
  | [] => []
  | (k, x) :: t => insert_by reverse k x (sort_by reverse t)
  end.

(** [sorted(sales, key=lambda x: <date of x>, reverse=...)]: the keys are
    computed first, in list order; the sort then compares them, which raises
    as soon as a naive and an aware key meet, and with both kinds present
    no sort can avoid comparing one of each. *)
Definition sorted_by_date (reverse : bool) (sales : json) : result (list json) :=
  items ← py_iter sales;
  keys ← mapR sale_date items;
  if existsb is_aware keys && existsb (fun d => negb (is_aware d)) keys
  then Raise TypeError
  else Ok (map snd (sort_by reverse (combine (map ordinal keys) items))).

(** ** [post_sale_to_discord] *)

Definition channel_send (env : Env) (channel : Z) (e : Embed) : M unit :=
  fun w =>
    if send_fails env (trace w) e then (Raise HTTPException, w)
    else emit (ChannelSend channel e) w.

Definition post_sale_to_discord (env : Env) (channel : Z) (c : string) (sale : json)
  : M datetime :=
  _ ← emit (Notify c sale);
  raw_price ← lift (py_get sale "price" (JInt 0));
  price ← lift (price_doge raw_price);
  sale_timestamp ← lift (sale_date sale);
  seller_address ← lift (py_get sale "sellerAddress" (JStr "Myst"));
  seller ← lift (shorten seller_address);
  buyer_address ← lift (py_get sale "buyerAddress" (JStr "NewP"));
  buyer ← lift (shorten buyer_address);
  cfg ← lift (config c);
  let embed := {| embed_color := color cfg;
                  sold_for := format_2f price +:+ " Doge";
                  buyer_field := buyer;
                  seller_field := seller |} in
  _ ← channel_send env channel embed;
  _ ← print (LogPosted c (format_2f price));
  mret sale_timestamp.

(** ** [check_sales] *)

(** The variables the loop over the sorted batch updates:
    [new_last_sale_timestamp], [skipped_older], [skipped_processed]. *)
Definition Acc : Type := datetime * nat * nat.

(** One iteration of [for sale in sales]. *)
Definition visit (env : Env) (channel : Z) (c : string)
    (last_sale_timestamp current_time : datetime) (acc : Acc) (sale : json) : M Acc :=
  let '(new_last, skipped_older, skipped_processed) := acc in
  status ← lift (py_get sale "status" JNull);
  if negb (eq_str status "bought") then mret acc else
  buyer ← lift (py_get sale "buyerAddress" JNull);
  if negb (truthy buyer) then mret acc else
  sale_timestamp ← lift (sale_date sale);
  age ← lift (dt_sub current_time sale_timestamp);
  if timedelta_24h <? age then mret (new_last, S skipped_older, skipped_processed) else
  seen ← lift (dt_le sale_timestamp last_sale_timestamp);
  if seen : bool then mret (new_last, skipped_older, S skipped_processed) else
  new_sale_timestamp ← post_sale_to_discord env channel c sale;
  newer ← lift (dt_gt new_sale_timestamp new_last);
  mret (if newer : bool then new_sale_timestamp else new_last, skipped_older, skipped_processed).

(** The body of [for collection in COLLECTIONS]: one poll cycle. *)
Definition check_collection (env : Env) (c : string) : M unit :=
  cfg ← lift (config c);
  if negb (get_channel env (channel_id cfg)) then print (LogNoChannel c) else
  last_sale_timestamp ← load_last_sale_timestamp env c;
  _ ← print (LogCurrentTime c last_sale_timestamp);
  sales ← fetch_sales env c;
  sales ← lift (sorted_by_date false sales);
  let current_time := utc (utcnow env c) in
  acc ← foldM (visit env (channel_id cfg) c last_sale_timestamp current_time)
              (last_sale_timestamp, 0%nat, 0%nat) sales;
  let '(new_last, skipped_older, skipped_processed) := acc in
  _ ← (if (0 <? skipped_older)%nat then print (LogSkippedOlder c skipped_older) else mret tt);
  _ ← (if (0 <? skipped_processed)%nat then print (LogSkippedProcessed c skipped_processed)
       else mret tt);
  if dt_ne new_last last_sale_timestamp then
    _ ← save_last_sale_timestamp env c new_last;
    print (LogUpdated c new_last)
  else print (LogNoNewSales c).

Fixpoint forM {A} (f : A -> M unit) (l : list A) : M unit :=
  match l with
  | [] => mret tt
  | x :: t => _ ← f x; forM f t
  end.

Definition check_sales (env : Env) : M unit :=
  forM (check_collection env) (map fst COLLECTIONS).

(** ** The commands *)

Definition ctx_send (env : Env) (msg : string) : M unit :=
  fun w =>
    if ctx_send_fails env (trace w) then (Raise HTTPException, w)
    else emit (CtxSend msg) w.

Definition post_last_sale (env : Env) (c : string) : M unit :=
  match lookup_config c COLLECTIONS with
  | None => ctx_send env "Invalid collection. Use 'dopedoges' or 'minidoges'."
  | Some cfg =>
      if negb (get_channel env (channel_id cfg)) then
        ctx_send env ("Error: Channel not found or bot lacks permission for " +:+ c +:+ ".")
      else
        sales ← fetch_sales env c;
        if negb (truthy sales) then
          ctx_send env ("No sales data available to post for " +:+ c +:+ ".")
        else
          sales ← lift (sorted_by_date true sales);
          match sales with
          | [] => lift (Raise IndexError)
          | last_sale :: _ =>
              _ ← post_sale_to_discord env (channel_id cfg) c last_sale;
              ctx_send env ("Last sale for " +:+ c +:+ " posted to the sales channel!")
          end
  end.

Definition test_sale_record (c : string) : json :=
  let dope := String.eqb c "dopedoges" in
  JObj [ ("inscriptionId", JStr ("test_image_id_" +:+ c));
         ("status", JStr "bought");
         ("price", JInt (if dope then 70000000000 else 50000000000));
         ("sellerAddress", JStr "TESTSELLER123456789");
         ("buyerAddress", JStr "TESTBUYER456789123");
         ("itemId", JStr (if dope then "999" else "888"));
         ("date", JStr "2025-03-11T21:00:00.000Z");
         ("inscriptionNumber", JInt (if dope then 12345 else 54321)) ].

Definition test_sale (env : Env) (c : string) : M unit :=
  match lookup_config c COLLECTIONS with
  | None => ctx_send env "Invalid collection. Use 'dopedoges' or 'minidoges'."
  | Some cfg =>
      if negb (get_channel env (channel_id cfg)) then
        ctx_send env ("Error: Channel not found or bot lacks permission for " +:+ c +:+ ".")
      else
        _ ← print (LogTestMessage c);
        _ ← post_sale_to_discord env (channel_id cfg) c (test_sale_record c);
        ctx_send env ("Test sale posted to the " +:+ c +:+ " sales channel!")
  end.

(** Running a coroutine on a database, with an empty trace to start. *)
Definition run {A} (m : M A) (d : gmap string (option Z)) : result A * World :=
  m {| db := d; trace := [] |}.

(** * Vocabulary of the properties *)

(** ** The pure content of the coroutines

    [render] is the alert [post_sale_to_discord] builds before it sends,
    [payload] the value [fetch_sales] returns, [classify] the decision one
    loop iteration takes, [loaded] the watermark a cycle starts from.  Each
    is tied to the code by an equation in the next part. *)

(** [post_sale_to_discord] up to the send: the timestamp it returns, the
    alert, and the price as printed. *)
Definition render (c : string) (sale : json) : result (datetime * Embed * string) :=
  raw_price ← py_get sale "price" (JInt 0);
  price ← price_doge raw_price;
  sale_timestamp ← sale_date sale;
  seller_address ← py_get sale "sellerAddress" (JStr "Myst");
  seller ← shorten seller_address;
  buyer_address ← py_get sale "buyerAddress" (JStr "NewP");
  buyer ← shorten buyer_address;
  cfg ← config c;
  Ok (sale_timestamp,
      {| embed_color := color cfg;
         sold_for := format_2f price +:+ " Doge";
         buyer_field := buyer;
         seller_field := seller |},
      format_2f price).

(** What [fetch_sales] returns for a response. *)
Definition payload (r : Response) : json :=
  match r with
  | Answer status (Some data) =>
      if status =? 200 then
        match py_get data "data" (JArr []) with Ok v => v | Raise _ => JArr [] end
      else JArr []
  | _ => JArr []
  end.

(** The four ways out of a loop iteration that does not raise. *)
Inductive Verdict :=
| NotASale
| TooOld
| AlreadyProcessed
| Deliver.

(** The tests of one loop iteration, in the order of the source. *)
Definition classify (last current_time : datetime) (sale : json) : result Verdict :=
  status ← py_get sale "status" JNull;
  if negb (eq_str status "bought") then Ok NotASale else
  buyer ← py_get sale "buyerAddress" JNull;
  if negb (truthy buyer) then Ok NotASale else
  sale_timestamp ← sale_date sale;
  age ← dt_sub current_time sale_timestamp;
  if timedelta_24h <? age then Ok TooOld else
  seen ← dt_le sale_timestamp last;
  Ok (if seen : bool then AlreadyProcessed else Deliver).

(** The watermark a cycle works with: what [load_last_sale_timestamp]
    returns on database [d]. *)
Definition loaded (env : Env) (d : gmap string (option Z)) (c : string) : datetime :=
  if load_fails env c then datetime_min_utc else stored d c.

(** ** Traces: what a cycle appends, and how to read it *)

(** The world after more events. *)
Definition add (w : World) (evs : list Event) : World :=
  {| db := db w; trace := trace w ++ evs |}.

(** The events of [load_last_sale_timestamp], [fetch_sales] and
    [save_last_sale_timestamp]. *)
Definition load_log (env : Env) (c : string) : list Event :=
  [Load c] ++ (if load_fails env c then [Print (LogLoadError c)] else []).

Definition fetch_log (c : string) (r : Response) : list Event :=
  Fetch c ::
  match r with
  | Answer status (Some data) =>
      if status =? 200 then
        [Print (LogFetched c)] ++
        match py_get data "data" (JArr []) with
        | Ok _ => []
        | Raise _ => [Print (LogFetchError c)]
        end
      else [Print (LogFetchHTTP c status)]
  | Answer status None =>
      if status =? 200 then [Print (LogFetchError c)] else [Print (LogFetchHTTP c status)]
  | ConnectionFailed => [Print (LogFetchError c)]
  end.

Definition save_log (env : Env) (c : string) (t : datetime) : list Event :=
  Save c t :: (if save_fails env c then [Print (LogSaveError c)] else [Print (LogSaved c t)]).

(** What a cycle has done when it reaches the sort. *)
Definition prologue (env : Env) (c : string) (cfg : Config) (d : gmap string (option Z))
  : list Event :=
  load_log env c ++ [Print (LogCurrentTime c (loaded env d c))] ++
  fetch_log c (http_get env (api_url cfg)).

(** What the end of a cycle prints and saves, given the loop's result. *)
Definition epilogue (env : Env) (c : string) (last : datetime) (acc : Acc) : list Event :=
  (if (0 <? acc.1.2)%nat then [Print (LogSkippedOlder c acc.1.2)] else []) ++
  (if (0 <? acc.2)%nat then [Print (LogSkippedProcessed c acc.2)] else []) ++
  (if dt_ne acc.1.1 last then save_log env c acc.1.1 ++ [Print (LogUpdated c acc.1.1)]
   else [Print (LogNoNewSales c)]).

(** The table at the end of a cycle, given the loop's result. *)
Definition commit (env : Env) (c : string) (last : datetime) (acc : Acc)
    (d : gmap string (option Z)) : gmap string (option Z) :=
  if dt_ne acc.1.1 last && negb (save_fails env c)
  then <[c := Some (ordinal acc.1.1)]> d else d.

(** The records handed to the notifier, the alerts sent, the saves called
    for, in order. *)
Definition notified (evs : list Event) : list json :=
  omap (fun e => match e with Notify _ sale => Some sale | _ => None end) evs.

Definition sent (evs : list Event) : list Embed :=
  omap (fun e => match e with ChannelSend _ e => Some e | _ => None end) evs.

Definition saves (evs : list Event) : list (string * datetime) :=
  omap (fun e => match e with Save c t => Some (c, t) | _ => None end) evs.

(** A call of the watermark store. *)
Definition is_store_call (e : Event) : bool :=
  match e with Load _ | Save _ _ => true | _ => false end.

(** The instant of a record's date (0 when it has none; a record that is
    notified always has one). *)
Definition sale_instant (sale : json) : Z :=
  match sale_date sale with Ok d => ordinal d | Raise _ => 0 end.

(** The order [sorted] leaves between neighbours: keys ascending, or
    descending for [reverse=True]. *)
Definition key_order {A} (reverse : bool) (a b : Z * A) : Prop :=
  if reverse then b.1 <= a.1 else a.1 <= b.1.

(** The largest of [w] and the numbers of [l]. *)
Definition max_from (w : Z) (l : list Z) : Z := fold_left Z.max l w.

(** ** The loop, the cycle, a sequence of cycles *)

(** What the loop may do: notify a record of the batch that [classify]
    sends to delivery, send its alert, print that it was posted. *)
Definition loop_event (c : string) (last now : datetime) (sales : list json)
    (e : Event) : Prop :=
  match e with
  | Notify c' r => c' = c /\ r ∈ sales /\ classify last now r = Ok Deliver
  | ChannelSend _ _ => True
  | Print (LogPosted _ _) => True
  | _ => False
  end.

(** The state of the loop after some iterations, against the events they
    produced: the running maximum, and every notified record sent. *)
Definition loop_post (env : Env) (c : string) (acc : Acc) (w : World) (evs : list Event)
    (res : result Acc) : Prop :=
  match res with
  | Ok acc' =>
      ordinal acc'.1.1 = max_from (ordinal acc.1.1) (map sale_instant (notified evs)) /\
      is_aware acc'.1.1 = is_aware acc.1.1 /\
      length (sent evs) = length (notified evs)
  | Raise e =>
      e = HTTPException ->
      exists evs' r embed, evs = evs' ++ [Notify c r] /\
                           send_fails env (trace w ++ evs) embed = true
  end.

(** How a cycle on database [d] can end. *)
Inductive Outcome (env : Env) (c : string) (d : gmap string (option Z))
  : result unit * World -> Prop :=
| NotConfigured e :
    config c = Raise e ->
    Outcome env c d (Raise e, {| db := d; trace := [] |})
| NoChannel cfg :
    config c = Ok cfg -> get_channel env (channel_id cfg) = false ->
    Outcome env c d (Ok tt, {| db := d; trace := [Print (LogNoChannel c)] |})
| SortRaised cfg e :
    config c = Ok cfg -> get_channel env (channel_id cfg) = true ->
    sorted_by_date false (payload (http_get env (api_url cfg))) = Raise e ->
    Outcome env c d (Raise e, {| db := d; trace := prologue env c cfg d |})
| LoopRaised cfg sales evs e :
    config c = Ok cfg -> get_channel env (channel_id cfg) = true ->
    sorted_by_date false (payload (http_get env (api_url cfg))) = Ok sales ->
    Forall (loop_event c (loaded env d c) (utc (utcnow env c)) sales) evs ->
    saves evs = [] ->
    (e = HTTPException ->
     exists evs' r embed, evs = evs' ++ [Notify c r] /\
       send_fails env (prologue env c cfg d ++ evs) embed = true) ->
    Outcome env c d (Raise e, {| db := d; trace := prologue env c cfg d ++ evs |})
| Completed cfg sales evs acc :
    config c = Ok cfg -> get_channel env (channel_id cfg) = true ->
    sorted_by_date false (payload (http_get env (api_url cfg))) = Ok sales ->
    Forall (loop_event c (loaded env d c) (utc (utcnow env c)) sales) evs ->
    saves evs = [] ->
    ordinal acc.1.1 = max_from (ordinal (loaded env d c)) (map sale_instant (notified evs)) ->
    is_aware acc.1.1 = true ->
    length (sent evs) = length (notified evs) ->
    Outcome env c d
      (Ok tt, {| db := commit env c (loaded env d c) acc d;
                 trace := prologue env c cfg d ++ evs ++ epilogue env c (loaded env d c) acc |}).

(** The instant of the watermark of [c] in table [d]. *)
Definition watermark (d : gmap string (option Z)) (c : string) : Z :=
  ordinal (stored d c).

(** The table after one cycle with a fresh trace, and after a sequence of
    cycles, each with its own outside. *)
Definition cycle (env : Env) (c : string) (d : gmap string (option Z))
  : gmap string (option Z) :=
  db (run (check_collection env c) d).2.

Fixpoint cycles (envs : list Env) (c : string) (d : gmap string (option Z))
  : gmap string (option Z) :=
  match envs with
  | [] => d
  | env :: rest => cycles rest c (cycle env c d)
  end.

(** ** Kinds of input and of coroutine *)

(** The fetch failed: a transport error, or a status other than 200. *)
Definition fetch_failed (r : Response) : bool :=
  match r with
  | ConnectionFailed => true
  | Answer status _ => negb (status =? 200)
  end.

(** A fetched record whose status is not "bought", or whose buyer address is
    absent, null or empty. *)
Definition not_a_sale (r : json) : bool :=
  match r with
  | JObj kvs =>
      negb (eq_str (default JNull (assoc "status" kvs)) "bought") ||
      negb (truthy (default JNull (assoc "buyerAddress" kvs)))
  | _ => false
  end.

(** A coroutine that leaves the table alone and calls neither
    [load_last_sale_timestamp] nor [save_last_sale_timestamp]. *)
Definition store_free {A} (m : M A) : Prop :=
  forall w, db (m w).2 = db w /\
            exists evs, trace (m w).2 = trace w ++ evs /\
                        Forall (fun e => is_store_call e = false) evs.

(** ** Sample inputs *)

(** A feed answering 200 with the given records under ["data"]. *)
Definition feed_of (records : list json) : Response :=
  Answer 200 (Some (JObj [("data", JArr records)])).

(** An outside where nothing fails: the channel resolves, the database and
    the channel answer, the feed returns [resp] and the clock reads [now]. *)
Definition calm_env (resp : Response) (now : Z) : Env :=
  {| get_channel := fun _ => true;
     load_fails := fun _ => false;
     save_fails := fun _ => false;
     http_get := fun _ => resp;
     utcnow := fun _ => now;
     send_fails := fun _ _ => false;
     ctx_send_fails := fun _ => false |}.

(** 2025-03-11T21:00:00Z and 22:00:00Z. *)
Definition T_2100 : Z := 1741726800000000.
Definition T_2200 : Z := 1741730400000000.

(** The table with the watermark of "dopedoges" at instant [t]. *)
Definition db_at (t : Z) : gmap string (option Z) := {["dopedoges" := Some t]}.

(** A completed sale with the given date and raw price. *)
Definition sale_at (date : string) (price : Z) : json :=
  JObj [("status", JStr "bought"); ("buyerAddress", JStr "DBuyer12345");
        ("date", JStr date); ("price", JInt price)].

(** A sale one hour before [T_2200], and one thirty hours before it. *)
Definition sale_2100 : json := sale_at "2025-03-11T21:00:00.000Z" 7000000000000.
Definition sale_stale : json := sale_at "2025-03-10T16:00:00.000Z" 7000000000000.

(** A sale at 20:00. *)
Definition sale_2000 : json := sale_at "2025-03-11T20:00:00.000Z" 500000.

(** A listing, not a sale. *)
Definition sale_listed : json :=
  JObj [("status", JStr "listed"); ("date", JStr "2025-03-11T21:30:00.000Z");
        ("price", JInt 7000000000000)].


(** A sale whose date is not a date, and a sale with no date at all. *)
Definition sale_bad_date : json := sale_at "not-a-date" 7000000000000.

Definition sale_no_date : json :=
  JObj [("status", JStr "bought"); ("buyerAddress", JStr "DBuyer12345");
        ("price", JInt 7000000000000)].

(** An outside where the first alert of a run is refused by the channel and
    any later one would be accepted. *)
Definition first_send_fails_env (resp : Response) (now : Z) : Env :=
  {| get_channel := fun _ => true;
     load_fails := fun _ => false;
     save_fails := fun _ => false;
     http_get := fun _ => resp;
     utcnow := fun _ => now;
     send_fails := fun tr _ => match notified tr with [_] => true | _ => false end;
     ctx_send_fails := fun _ => false |}.

(** ** The filter of the loop, written out *)

(** The records the loop hands to the notifier: status "bought", a buyer
    address that is not empty, a date that can be compared with the clock
    and is at most 24 hours before it, and that can be compared with the
    watermark and is after it. *)
Definition selected (last now : datetime) (r : json) : bool :=
  match py_get r "status" JNull, py_get r "buyerAddress" JNull, sale_date r with
  | Ok status, Ok buyer, Ok ts =>
      eq_str status "bought" && truthy buyer &&
      same_kind now ts && (ordinal now - ordinal ts <=? timedelta_24h) &&
      same_kind ts last && (ordinal last <? ordinal ts)
  | _, _, _ => false
  end.

(** Not dated later. *)
Definition by_date (a b : json) : Prop := sale_instant a <= sale_instant b.

(** A record with a timestamp that carries an offset and whose alert can be
    built. *)
Definition well_formed (c : string) (r : json) : bool :=
  match sale_date r, render c r with
  | Ok ts, Ok _ => is_aware ts
  | _, _ => false
  end.

(** The same outside, with another answer to the upsert. *)
Definition with_save_fails (f : string -> bool) (env : Env) : Env :=
  {| get_channel := get_channel env;
     load_fails := load_fails env;
     save_fails := f;
     http_get := http_get env;
     utcnow := utcnow env;
     send_fails := send_fails env;
     ctx_send_fails := ctx_send_fails env |}.

(** A sale dated a day after [T_2200]; a record with a date only; a sale
    whose seller address is null. *)
Definition sale_future : json := sale_at "2025-03-12T22:00:00.000Z" 100000000.

Definition sale_bare : json := JObj [("date", JStr "2025-03-11T21:00:00.000Z")].

Definition sale_null_seller : json :=
  JObj [("status", JStr "bought"); ("buyerAddress", JStr "DBuyer12345");
        ("sellerAddress", JNull); ("date", JStr "2025-03-11T21:00:00.000Z");
        ("price", JInt 100000000)].

(** ** The counters of the loop, written out *)

(** The iteration on [r] ends with verdict [v]. *)
Definition judged (v : Verdict) (last now : datetime) (r : json) : bool :=
  match classify last now r, v with
  | Ok NotASale, NotASale | Ok TooOld, TooOld
  | Ok AlreadyProcessed, AlreadyProcessed | Ok Deliver, Deliver => true
  | _, _ => false
  end.

(** The lines a trace prints about skipped records, in order. *)
Definition skip_reports (evs : list Event) : list Log :=
  omap (fun e => match e with
                 | Print (LogSkippedOlder c n) => Some (LogSkippedOlder c n)
                 | Print (LogSkippedProcessed c n) => Some (LogSkippedProcessed c n)
                 | _ => None
                 end) evs.

(** ** Well-formed answers *)

(** A JSON object, and a JSON list of objects: what the loop expects the
    feed's [data] member to be. *)
Definition is_record (r : json) : bool :=
  match r with JObj _ => true | _ => false end.

Definition records_list (v : json) : bool :=
  match v with JArr items => forallb is_record items | _ => false end.

(** A batch with a fresh sale and a member that is not an object. *)
Definition feed_with_number : Response :=
  Answer 200 (Some (JObj [("data", JArr [sale_2100; JInt 42])])).

(** * Properties *)

(** ** The model on concrete inputs *)

Example fromisoformat_feed_date :
  fromisoformat (replace_Z "2025-03-11T21:00:00.000Z") = Some (utc T_2100).
Proof. reflexivity. Qed.

Example fromisoformat_offset :
  fromisoformat "2024-02-29T23:00:00.500+05:30"
  = Some (mkdt 1709247600500000 (Some 19800000000)).
Proof. reflexivity. Qed.

Example fromisoformat_date_only : fromisoformat "1970-01-02" = Some (mkdt 86400000000 None).
Proof. reflexivity. Qed.

Example fromisoformat_no_such_day : fromisoformat "2023-02-29T00:00:00" = None.
Proof. reflexivity. Qed.

Example fromisoformat_not_a_date : fromisoformat (replace_Z "not-a-date") = None.
Proof. reflexivity. Qed.

Example datetime_min_instant : ordinal datetime_min_utc = -62135596800000000.
Proof. reflexivity. Qed.

(** 500000 / 10^8 is the double just above 0.005, 267500000 / 10^8 the one
    just below 2.675, 12500000 / 10^8 is 0.125 exactly (a tie, to even). *)
Example price_half_cent : (x ← price_doge (JInt 500000); Ok (format_2f x)) = Ok "0.01".
Proof. vm_compute. reflexivity. Qed.

Example price_2_675 : (x ← price_doge (JInt 267500000); Ok (format_2f x)) = Ok "2.67".
Proof. vm_compute. reflexivity. Qed.

Example price_tie : (x ← price_doge (JInt 12500000); Ok (format_2f x)) = Ok "0.12".
Proof. vm_compute. reflexivity. Qed.

Example price_not_a_number : price_doge (JStr "7") = Raise TypeError.
Proof. reflexivity. Qed.

Example shorten_address : shorten (JStr "TESTSELLER123456789") = Ok "TEST...6789".
Proof. reflexivity. Qed.

Example shorten_short : shorten (JStr "abc") = Ok "abc...abc".
Proof. reflexivity. Qed.

Example sorted_mixed_kinds :
  sorted_by_date false (JArr [sale_at "2025-03-11T21:00:00" 1; sale_2100]) = Raise TypeError.
Proof. reflexivity. Qed.

(** One tick on an empty table: the two sales are delivered oldest first,
    the listing is passed over, the newest timestamp is saved. *)
Example check_sales_tick :
  run (check_sales (calm_env (feed_of [sale_2100; sale_listed; sale_2000]) T_2200)) ∅
  = (Ok tt,
     {| db := db_at T_2100;
        trace :=
          [Load "dopedoges"; Print (LogCurrentTime "dopedoges" datetime_min_utc);
           Fetch "dopedoges"; Print (LogFetched "dopedoges");
           Notify "dopedoges" sale_2000;
           ChannelSend 1355537264800829511
             {| embed_color := 16729344; sold_for := "0.01 Doge";
                buyer_field := "DBuy...2345"; seller_field := "Myst...Myst" |};
           Print (LogPosted "dopedoges" "0.01");
           Notify "dopedoges" sale_2100;
           ChannelSend 1355537264800829511
             {| embed_color := 16729344; sold_for := "70000.00 Doge";
                buyer_field := "DBuy...2345"; seller_field := "Myst...Myst" |};
           Print (LogPosted "dopedoges" "70000.00");
           Save "dopedoges" (utc T_2100); Print (LogSaved "dopedoges" (utc T_2100));
           Print (LogUpdated "dopedoges" (utc T_2100))] |}).
Proof. vm_compute. reflexivity. Qed.

Example test_sale_run :
  run (test_sale (calm_env ConnectionFailed T_2200) "dopedoges") ∅
  = (Ok tt,
     {| db := ∅;
        trace :=
          [Print (LogTestMessage "dopedoges");
           Notify "dopedoges" (test_sale_record "dopedoges");
           ChannelSend 1355537264800829511
             {| embed_color := 16729344; sold_for := "700.00 Doge";
                buyer_field := "TEST...9123"; seller_field := "TEST...6789" |};
           Print (LogPosted "dopedoges" "700.00");
           CtxSend "Test sale posted to the dopedoges sales channel!"] |}).
Proof. vm_compute. reflexivity. Qed.

Arguments fromisoformat : simpl never.
Arguments replace_Z : simpl never.
Arguments int_truediv : simpl never.
Arguments format_2f : simpl never.
Arguments sale_date : simpl never.

(** ** The equations of the coroutines *)

Lemma add_nil w : add w [] = w.
Proof. destruct w; unfold add; simpl. by rewrite app_nil_r. Qed.

Lemma add_add w a b : add (add w a) b = add w (a ++ b).
Proof. unfold add; simpl. by rewrite app_assoc. Qed.

Ltac run_M :=
  unfold print, emit, lift, mbind, M_bind, result_bind, mret, M_ret, result_ret in *;
  cbn.

Lemma post_sale_to_discord_eq env ch c sale w :
  post_sale_to_discord env ch c sale w =
  match render c sale with
  | Raise e => (Raise e, add w [Notify c sale])
  | Ok (ts, embed, price) =>
      if send_fails env (trace w ++ [Notify c sale]) embed
      then (Raise HTTPException, add w [Notify c sale])
      else (Ok ts, add w [Notify c sale; ChannelSend ch embed; Print (LogPosted c price)])
  end.
Proof.
  unfold post_sale_to_discord, render, channel_send, add. run_M.
  destruct (py_get sale "price" (JInt 0)) as [raw|]; cbn; [|done].
  destruct (price_doge raw) as [p|]; cbn; [|done].
  destruct (sale_date sale) as [ts|]; cbn; [|done].
  destruct (py_get sale "sellerAddress" (JStr "Myst")) as [sa|]; cbn; [|done].
  destruct (shorten sa) as [s|]; cbn; [|done].
  destruct (py_get sale "buyerAddress" (JStr "NewP")) as [ba|]; cbn; [|done].
  destruct (shorten ba) as [b|]; cbn; [|done].
  destruct (config c) as [cfg|]; cbn; [|done].
  destruct (send_fails _ _ _); cbn; [done|].
  by rewrite <- !app_assoc.
Qed.

Lemma load_last_sale_timestamp_eq env c w :
  load_last_sale_timestamp env c w = (Ok (loaded env (db w) c), add w (load_log env c)).
Proof.
  unfold load_last_sale_timestamp, loaded, load_log, add. run_M.
  destruct (load_fails env c); cbn; [by rewrite <- app_assoc|].
  by destruct w.
Qed.

Lemma fetch_sales_eq env c w :
  fetch_sales env c w =
  match config c with
  | Raise e => (Raise e, w)
  | Ok cfg => (Ok (payload (http_get env (api_url cfg))),
               add w (fetch_log c (http_get env (api_url cfg))))
  end.
Proof.
  unfold fetch_sales, payload, fetch_log, add. run_M.
  destruct (config c) as [cfg|]; cbn; [|done].
  destruct (http_get env (api_url cfg)) as [|status [data|]]; cbn.
  - by rewrite <- ?app_assoc.
  - destruct (status =? 200); cbn; [|by rewrite <- ?app_assoc].
    destruct (py_get data "data" (JArr [])); cbn; by rewrite <- ?app_assoc.
  - destruct (status =? 200); cbn; by rewrite <- ?app_assoc.
Qed.


Lemma visit_eq env ch c last now (acc : Acc) sale w :
  visit env ch c last now acc sale w =
  match classify last now sale with
  | Raise e => (Raise e, w)
  | Ok NotASale => (Ok acc, w)
  | Ok TooOld => (Ok (acc.1.1, S acc.1.2, acc.2), w)
  | Ok AlreadyProcessed => (Ok (acc.1.1, acc.1.2, S acc.2), w)
  | Ok Deliver =>
      match post_sale_to_discord env ch c sale w with
      | (Raise e, w') => (Raise e, w')
      | (Ok ts, w') =>
          match dt_gt ts acc.1.1 with
          | Raise e => (Raise e, w')
          | Ok newer => (Ok (if newer then ts else acc.1.1, acc.1.2, acc.2), w')
          end
      end
  end.
Proof.
  destruct acc as [[nl so] sp]. unfold visit, classify. run_M.
  destruct (py_get sale "status" JNull) as [st|]; cbn; [|done].
  destruct (eq_str st "bought"); cbn; [|done].
  destruct (py_get sale "buyerAddress" JNull) as [b|]; cbn; [|done].
  destruct (truthy b); cbn; [|done].
  destruct (sale_date sale) as [ts|]; cbn; [|done].
  destruct (dt_sub now ts) as [age|]; cbn; [|done].
  destruct (timedelta_24h <? age); cbn; [done|].
  destruct (dt_le ts last) as [[|]|]; cbn; [done| |done].
  destruct (post_sale_to_discord env ch c sale w) as [[ts'|] w']; cbn; [|done].
  destruct (dt_gt ts' nl); cbn; done.
Qed.

Lemma check_collection_eq env c w :
  check_collection env c w =
  match config c with
  | Raise e => (Raise e, w)
  | Ok cfg =>
      if get_channel env (channel_id cfg) then
        let last := loaded env (db w) c in
        let w1 := add w (prologue env c cfg (db w)) in
        match sorted_by_date false (payload (http_get env (api_url cfg))) with
        | Raise e => (Raise e, w1)
        | Ok sales =>
            match foldM (visit env (channel_id cfg) c last (utc (utcnow env c)))
                        (last, 0%nat, 0%nat) sales w1 with
            | (Raise e, w2) => (Raise e, w2)
            | (Ok acc, w2) =>
                (Ok tt, {| db := commit env c last acc (db w2);
                           trace := trace w2 ++ epilogue env c last acc |})
            end
        end
      else (Ok tt, add w [Print (LogNoChannel c)])
  end.
Proof.
  unfold check_collection.
  unfold mbind at 1, M_bind at 1, lift at 1.
  destruct (config c) as [cfg|] eqn:Hcfg; [|done].
  destruct (get_channel env (channel_id cfg)); cbn [negb]; [|done].
  unfold mbind at 1, M_bind at 1. rewrite load_last_sale_timestamp_eq.
  unfold mbind at 1, M_bind at 1. unfold print at 1, emit at 1.
  unfold mbind at 1, M_bind at 1. rewrite fetch_sales_eq, Hcfg.
  unfold mbind at 1, M_bind at 1, lift at 1. cbn [db add trace].
  assert (Hw : add (add (add w (load_log env c))
                     [Print (LogCurrentTime c (loaded env (db w) c))])
                (fetch_log c (http_get env (api_url cfg)))
               = add w (prologue env c cfg (db w))).
  { unfold prologue. by rewrite !add_add. }
  destruct (sorted_by_date false _) as [sales|].
  2:{ cbv zeta. rewrite <- Hw. done. }
  cbv zeta. rewrite <- Hw.
  unfold mbind at 1, M_bind at 1. fold (add (add w (load_log env c))
    [Print (LogCurrentTime c (loaded env (db w) c))]).
  destruct (foldM _ _ _ _) as [[[[nl so] sp]|] w2]; [|done].
  unfold epilogue, commit; cbn [fst snd].
  run_M.
  destruct so, sp; cbn;
    (destruct (dt_ne nl (loaded env (db w) c)); cbn; [|by rewrite <- ?app_assoc]);
    unfold save_last_sale_timestamp, save_log, upsert; run_M;
    destruct (save_fails env c); cbn; by rewrite <- ?app_assoc.
Qed.

(** ** Reading a trace *)

Lemma max_from_app w l1 l2 : max_from w (l1 ++ l2) = max_from (max_from w l1) l2.
Proof. unfold max_from. apply fold_left_app. Qed.

Lemma max_from_ge w l : w <= max_from w l.
Proof.
  unfold max_from. revert w. induction l as [|x l IH]; intros w; simpl; [lia|].
  specialize (IH (Z.max w x)). lia.
Qed.

Lemma notified_app a b : notified (a ++ b) = notified a ++ notified b.
Proof. apply omap_app. Qed.

Lemma sent_app a b : sent (a ++ b) = sent a ++ sent b.
Proof. apply omap_app. Qed.

Lemma saves_app a b : saves (a ++ b) = saves a ++ saves b.
Proof. apply omap_app. Qed.

(** ** Which exception comes from where *)

Lemma py_get_raises x k dflt e : py_get x k dflt = Raise e -> e = AttributeError.
Proof. destruct x; simpl; congruence. Qed.

Lemma sale_date_raises sale e :
  sale_date sale = Raise e -> e = AttributeError \/ e = ValueError.
Proof.
  unfold sale_date. run_M.
  destruct (py_get sale "date" _) as [v|] eqn:Hg; cbn.
  all: unfold py_replace_Z.
  - destruct v; cbn; try (intros [= <-]; by left).
    destruct (fromisoformat (replace_Z s)); [done|]. intros [= <-]. by right.
  - intros [= <-]. left. by eapply py_get_raises.
Qed.

Lemma classify_no_http last now sale : classify last now sale <> Raise HTTPException.
Proof.
  unfold classify, dt_sub, dt_le. run_M.
  destruct (py_get sale "status" JNull) eqn:H1; cbn;
    [|apply py_get_raises in H1; congruence].
  destruct (eq_str _ _); cbn; [|done].
  destruct (py_get sale "buyerAddress" JNull) eqn:H2; cbn;
    [|apply py_get_raises in H2; congruence].
  destruct (truthy _); cbn; [|done].
  destruct (sale_date sale) as [ts|] eqn:H3; cbn;
    [|apply sale_date_raises in H3 as [->| ->]; congruence].
  destruct (same_kind now ts); cbn; [|done].
  destruct (_ <? _); [done|].
  destruct (same_kind ts last); cbn; done.
Qed.

Lemma int_truediv_raises a b e : int_truediv a b = Raise e -> e = OverflowError.
Proof.
  unfold int_truediv. destruct (a =? 0); [done|]. cbv zeta.
  destruct (2 ^ 1024 <=? _); congruence.
Qed.

Lemma price_doge_raises raw e :
  price_doge raw = Raise e -> e = TypeError \/ e = OverflowError.
Proof.
  destruct raw; simpl; try (intros [= <-]; by left);
    intros H%int_truediv_raises; by right.
Qed.

Lemma shorten_raises a e : shorten a = Raise e -> e = TypeError.
Proof. destruct a; simpl; congruence. Qed.

Lemma config_raises c e : config c = Raise e -> e = KeyError.
Proof. unfold config. destruct (lookup_config c COLLECTIONS); congruence. Qed.

Lemma render_no_http c sale : render c sale <> Raise HTTPException.
Proof.
  unfold render. run_M.
  destruct (py_get sale "price" _) as [raw|] eqn:H1; cbn;
    [|apply py_get_raises in H1; congruence].
  destruct (price_doge raw) as [p|] eqn:H2; cbn;
    [|apply price_doge_raises in H2 as [->| ->]; congruence].
  destruct (sale_date sale) as [ts|] eqn:H3; cbn;
    [|apply sale_date_raises in H3 as [->| ->]; congruence].
  destruct (py_get sale "sellerAddress" _) as [sa|] eqn:H4; cbn;
    [|apply py_get_raises in H4; congruence].
  destruct (shorten sa) eqn:H5; cbn; [|apply shorten_raises in H5; congruence].
  destruct (py_get sale "buyerAddress" _) as [ba|] eqn:H6; cbn;
    [|apply py_get_raises in H6; congruence].
  destruct (shorten ba) eqn:H7; cbn; [|apply shorten_raises in H7; congruence].
  destruct (config c) eqn:H8; cbn; [done|apply config_raises in H8; congruence].
Qed.

Lemma render_date c sale ts embed price :
  render c sale = Ok (ts, embed, price) -> sale_date sale = Ok ts.
Proof.
  unfold render. run_M.
  destruct (py_get sale "price" _); cbn; [|done].
  destruct (price_doge _); cbn; [|done].
  destruct (sale_date sale); cbn; [|done].
  destruct (py_get sale "sellerAddress" _); cbn; [|done].
  destruct (shorten _); cbn; [|done].
  destruct (py_get sale "buyerAddress" _); cbn; [|done].
  destruct (shorten _); cbn; [|done].
  destruct (config c); cbn; [|done].
  congruence.
Qed.

(** ** The loop over the sorted batch *)

Lemma foldM_cons {A B} (f : A -> B -> M A) a x t w :
  foldM f a (x :: t) w =
  match f a x w with
  | (Ok a', w') => foldM f a' t w'
  | (Raise e, w') => (Raise e, w')
  end.
Proof. done. Qed.

Section Loop.

Variables (env : Env) (ch : Z) (c : string) (last now : datetime).

Lemma loop_event_mono l1 l2 e :
  l1 ⊆ l2 -> loop_event c last now l1 e -> loop_event c last now l2 e.
Proof. intros Hs. destruct e; simpl; try done. intros (? & ? & ?). auto. Qed.

Lemma dt_gt_max a b newer :
  dt_gt a b = Ok newer ->
  ordinal (if newer then a else b) = Z.max (ordinal b) (ordinal a) /\
  is_aware (if newer then a else b) = is_aware b.
Proof.
  unfold dt_gt, same_kind, is_aware.
  destruct (utcoffset a) eqn:Ea, (utcoffset b) eqn:Eb; intros [= <-];
    (destruct (_ <? _) eqn:E; [apply Z.ltb_lt in E|apply Z.ltb_ge in E]);
    split; rewrite ?Ea, ?Eb; try done; lia.
Qed.

Lemma visit_inv acc sale w :
  exists evs,
    (visit env ch c last now acc sale w).2 = add w evs /\
    Forall (loop_event c last now [sale]) evs /\
    saves evs = [] /\
    loop_post env c acc w evs (visit env ch c last now acc sale w).1.
Proof.
  rewrite visit_eq.
  destruct (classify last now sale) as [[| | |]|e] eqn:Hc.
  1-3: exists []; rewrite add_nil; cbn; done.
  - rewrite post_sale_to_discord_eq.
    destruct (render c sale) as [[[ts embed] price]|e] eqn:Hr.
    + destruct (send_fails _ _ _) eqn:Hs.
      * exists [Notify c sale]. cbn. repeat split; try done.
        -- constructor; [|done]; cbn; repeat split; try done; set_solver.
        -- intros _. exists [], sale, embed. done.
      * destruct (dt_gt ts acc.1.1) as [newer|e] eqn:Hg; cbn.
        -- exists [Notify c sale; ChannelSend ch embed; Print (LogPosted c price)].
           repeat split; try done.
           ++ repeat constructor; try done; set_solver.
           ++ cbn. unfold sale_instant. rewrite (render_date _ _ _ _ _ Hr).
              by apply dt_gt_max.
           ++ by apply dt_gt_max.
        -- exists [Notify c sale; ChannelSend ch embed; Print (LogPosted c price)].
           repeat split; try done.
           ++ repeat constructor; try done; set_solver.
           ++ intros ->. unfold dt_gt in Hg. by destruct (same_kind _ _).
    + exists [Notify c sale]. cbn. repeat split; try done.
      * constructor; [|done]; cbn; repeat split; try done; set_solver.
      * intros ->. by apply render_no_http in Hr.
  - exists []. rewrite add_nil. cbn. repeat split; try done.
    intros ->. by apply classify_no_http in Hc.
Qed.

Lemma loop_inv sales : forall acc w,
  exists evs,
    (foldM (visit env ch c last now) acc sales w).2 = add w evs /\
    Forall (loop_event c last now sales) evs /\
    saves evs = [] /\
    loop_post env c acc w evs (foldM (visit env ch c last now) acc sales w).1.
Proof.
  induction sales as [|sale sales IH]; intros acc w.
  - exists []. rewrite add_nil. cbn. done.
  - rewrite foldM_cons.
    destruct (visit_inv acc sale w) as (evs1 & Hw1 & Hev1 & Hsv1 & Hp1).
    assert (Hs1 : [sale] ⊆ sale :: sales).
    { intros x ->%list_elem_of_singleton. apply list_elem_of_here. }
    assert (Hs2 : sales ⊆ sale :: sales) by by apply list_subseteq_cons.
    destruct (visit env ch c last now acc sale w) as [[acc1|e] w1]; cbn [fst snd] in *.
    + destruct (IH acc1 w1) as (evs2 & Hw2 & Hev2 & Hsv2 & Hp2).
      exists (evs1 ++ evs2). subst w1. rewrite add_add in Hw2.
      split; [done|]. split; [|split].
      * apply Forall_app. split.
        -- eapply Forall_impl; [exact Hev1|]. intros e. by apply loop_event_mono.
        -- eapply Forall_impl; [exact Hev2|]. intros e. by apply loop_event_mono.
      * by rewrite saves_app, Hsv1, Hsv2.
      * destruct Hp1 as (Ho1 & Ha1 & Hl1).
        destruct (foldM _ _ _ _).1 as [acc2|e]; cbn in *.
        -- destruct Hp2 as (Ho2 & Ha2 & Hl2).
           rewrite notified_app, sent_app, map_app, max_from_app, !length_app.
           rewrite <- Ho1, <- Ha1. repeat split; try done. lia.
        -- intros He. destruct (Hp2 He) as (evs' & r & embed & -> & Hs).
           exists (evs1 ++ evs'), r, embed. rewrite app_assoc. split; [done|].
           by rewrite <- !app_assoc in *.
    + exists evs1. split; [done|]. split; [|done].
      eapply Forall_impl; [exact Hev1|]. intros e'. by apply loop_event_mono.
Qed.

End Loop.

(** ** One poll cycle, by cases *)

Lemma prologue_quiet env c cfg d :
  notified (prologue env c cfg d) = [] /\ sent (prologue env c cfg d) = [] /\
  saves (prologue env c cfg d) = [].
Proof.
  unfold prologue, load_log, fetch_log.
  destruct (load_fails env c), (http_get env (api_url cfg)) as [|status [data|]]; cbn;
    repeat (case_match; cbn); done.
Qed.

Lemma epilogue_quiet env c last acc :
  notified (epilogue env c last acc) = [] /\ sent (epilogue env c last acc) = [] /\
  saves (epilogue env c last acc) = if dt_ne acc.1.1 last then [(c, acc.1.1)] else [].
Proof.
  unfold epilogue, save_log.
  rewrite !notified_app, !sent_app, !saves_app.
  destruct (0 <? acc.1.2)%nat, (0 <? acc.2)%nat, (dt_ne acc.1.1 last), (save_fails env c);
    cbn; done.
Qed.

Lemma loop_notified c last now sales evs r :
  Forall (loop_event c last now sales) evs -> r ∈ notified evs ->
  Notify c r ∈ evs /\ r ∈ sales /\ classify last now r = Ok Deliver.
Proof.
  intros Hev Hr. apply list_elem_of_omap in Hr as (e & He & Hr).
  rewrite Forall_forall in Hev. specialize (Hev e He).
  destruct e; try done. injection Hr as ->. cbn in Hev. destruct Hev as (-> & ? & ?). done.
Qed.

Lemma loaded_aware env d c : is_aware (loaded env d c) = true.
Proof. unfold loaded, stored. by repeat case_match. Qed.

Lemma cycle_outcome env c d : Outcome env c d (run (check_collection env c) d).
Proof.
  unfold run. rewrite check_collection_eq. cbn [db].
  destruct (config c) as [cfg|e] eqn:Hcfg; [|by constructor].
  destruct (get_channel env (channel_id cfg)) eqn:Hch; [|by econstructor].
  cbv zeta.
  destruct (sorted_by_date false _) as [sales|e] eqn:Hsort; [|by econstructor].
  set (w1 := add _ _).
  destruct (loop_inv env (channel_id cfg) c (loaded env d c) (utc (utcnow env c)) sales
              (loaded env d c, 0%nat, 0%nat) w1) as (evs & Hw & Hev & Hsv & Hp).
  destruct (foldM _ _ _ _) as [[acc|e] w2]; cbn [fst snd] in *; subst w2.
  - destruct Hp as (Ho & Ha & Hl). cbn [fst] in *.
    rewrite loaded_aware in Ha.
    unfold w1, add; cbn [db trace app]. rewrite <- app_assoc.
    by eapply Completed.
  - unfold w1, add in *; cbn [db trace app] in *.
    by eapply LoopRaised.
Qed.

(** What [classify] requires of a record it sends to delivery. *)
Lemma classify_deliver last now sale :
  classify last now sale = Ok Deliver ->
  exists status buyer ts,
    py_get sale "status" JNull = Ok status /\ eq_str status "bought" = true /\
    py_get sale "buyerAddress" JNull = Ok buyer /\ truthy buyer = true /\
    sale_date sale = Ok ts /\
    same_kind now ts = true /\ ordinal now - ordinal ts <= timedelta_24h /\
    same_kind ts last = true /\ ordinal last < ordinal ts.
Proof.
  unfold classify, dt_sub, dt_le. run_M.
  destruct (py_get sale "status" JNull) as [st|]; cbn; [|done].
  destruct (eq_str st "bought") eqn:Hst; cbn; [|done].
  destruct (py_get sale "buyerAddress" JNull) as [b|]; cbn; [|done].
  destruct (truthy b) eqn:Hb; cbn; [|done].
  destruct (sale_date sale) as [ts|]; cbn; [|done].
  destruct (same_kind now ts) eqn:Hk1; cbn; [|done].
  destruct (timedelta_24h <? _) eqn:Hage; [done|].
  destruct (same_kind ts last) eqn:Hk2; cbn; [|done].
  destruct (_ <=? _) eqn:Hle; [done|]. intros _.
  apply Z.ltb_ge in Hage. apply Z.leb_gt in Hle.
  exists st, b, ts. done.
Qed.

(** Every record a cycle notifies went through [classify] to delivery, with
    the loaded watermark and the cycle's clock. *)
Lemma cycle_notified env c d r :
  r ∈ notified (trace (run (check_collection env c) d).2) ->
  classify (loaded env d c) (utc (utcnow env c)) r = Ok Deliver.
Proof.
  destruct (cycle_outcome env c d) as [e He|cfg Hc Hch|cfg e Hc Hch Hs
    |cfg sales evs e Hc Hch Hs Hev Hsv Hh|cfg sales evs acc Hc Hch Hs Hev Hsv Ho Ha Hl];
    cbn [snd trace].
  - by intros ?%elem_of_nil.
  - cbn. by intros ?%elem_of_nil.
  - rewrite (proj1 (prologue_quiet env c cfg d)). by intros ?%elem_of_nil.
  - rewrite notified_app, (proj1 (prologue_quiet env c cfg d)). cbn [app].
    intros Hr. by eapply loop_notified.
  - rewrite !notified_app, (proj1 (prologue_quiet env c cfg d)),
      (proj1 (epilogue_quiet env c _ acc)), app_nil_r. cbn [app].
    intros Hr. by eapply loop_notified.
Qed.

(** ** C2 and C3: what the filter drops *)

(** C2. A fetched record whose timestamp is at or before the watermark the
    cycle loaded is never handed to the notifier, and its loop iteration
    leaves [new_last_sale_timestamp] and the world as they were: it
    contributes nothing to the new watermark. *)
Theorem C2_processed_record_not_selected env c d r ts :
  sale_date r = Ok ts ->
  is_aware ts = true ->
  ordinal ts <= ordinal (loaded env d c) ->
  (r ∉ notified (trace (run (check_collection env c) d).2)) /\
  forall ch acc w, exists acc',
    visit env ch c (loaded env d c) (utc (utcnow env c)) acc r w = (Ok acc', w) /\
    acc'.1.1 = acc.1.1.
Proof.
  intros Hts Haw Hle. split.
  - intros Hr%cycle_notified.
    apply classify_deliver in Hr as (st & b & ts' & _ & _ & _ & _ & Hd & _ & _ & _ & Hlt).
    rewrite Hts in Hd. injection Hd as <-. lia.
  - intros ch acc w. rewrite visit_eq.
    pose proof (loaded_aware env d c) as Hla.
    unfold classify, dt_sub, dt_le, same_kind. run_M.
    unfold is_aware in *. rewrite Hts.
    destruct r as [| | | | |kvs]; try (by unfold sale_date in Hts); cbn.
    destruct (eq_str _ "bought"); cbn; [|by eexists].
    destruct (truthy _); cbn; [|by eexists].
    destruct (utcoffset ts); [|done].
    destruct (utcoffset (loaded env d c)); [|done]. cbn.
    destruct (timedelta_24h <? _); [by eexists|].
    apply Z.leb_le in Hle. rewrite Hle. by eexists.
Qed.

Lemma C2_witness :
  (sale_2100 ∉ notified (trace (run (check_collection (calm_env (feed_of [sale_2100]) T_2200)
                                       "dopedoges") (db_at T_2100)).2)) /\
  forall ch acc w, exists acc',
    visit (calm_env (feed_of [sale_2100]) T_2200) ch "dopedoges"
          (loaded (calm_env (feed_of [sale_2100]) T_2200) (db_at T_2100) "dopedoges")
          (utc (utcnow (calm_env (feed_of [sale_2100]) T_2200) "dopedoges")) acc sale_2100 w
      = (Ok acc', w) /\
    acc'.1.1 = acc.1.1.
Proof.
  apply (C2_processed_record_not_selected (calm_env (feed_of [sale_2100]) T_2200)
           "dopedoges" (db_at T_2100) sale_2100 (utc T_2100)).
  - reflexivity.
  - reflexivity.
  - vm_compute. discriminate.
Defined.

(** C3. A fetched record older than the clock reading minus 24 hours is
    never handed to the notifier, whatever the database holds and whether or
    not the load succeeds; its loop iteration is a skip for every watermark
    value, the sentinel of an empty table included. *)
Theorem C3_stale_record_not_selected env c d r ts :
  sale_date r = Ok ts ->
  is_aware ts = true ->
  ordinal ts < utcnow env c - timedelta_24h ->
  (r ∉ notified (trace (run (check_collection env c) d).2)) /\
  forall ch last acc w, exists acc',
    visit env ch c last (utc (utcnow env c)) acc r w = (Ok acc', w) /\
    acc'.1.1 = acc.1.1.
Proof.
  intros Hts Haw Hold. split.
  - intros Hr%cycle_notified.
    apply classify_deliver in Hr as (st & b & ts' & _ & _ & _ & _ & Hd & _ & Hage & _).
    rewrite Hts in Hd. injection Hd as <-. cbn in Hage. lia.
  - intros ch last acc w. rewrite visit_eq.
    unfold classify, dt_sub, same_kind. run_M.
    unfold is_aware in *. rewrite Hts.
    destruct r as [| | | | |kvs]; try (by unfold sale_date in Hts); cbn.
    destruct (eq_str _ "bought"); cbn; [|by eexists].
    destruct (truthy _); cbn; [|by eexists].
    destruct (utcoffset ts) eqn:Hoff; [|done]. cbn.
    assert ((timedelta_24h <? utcnow env c - 0 - ordinal ts) = true) as ->
      by (apply Z.ltb_lt; lia).
    by eexists.
Qed.

Lemma C3_witness :
  (sale_stale ∉ notified (trace (run (check_collection (calm_env (feed_of [sale_stale]) T_2200)
                                        "dopedoges") ∅).2)) /\
  forall ch last acc w, exists acc',
    visit (calm_env (feed_of [sale_stale]) T_2200) ch "dopedoges" last
          (utc (utcnow (calm_env (feed_of [sale_stale]) T_2200) "dopedoges")) acc sale_stale w
      = (Ok acc', w) /\
    acc'.1.1 = acc.1.1.
Proof.
  apply (C3_stale_record_not_selected (calm_env (feed_of [sale_stale]) T_2200)
           "dopedoges" ∅ sale_stale (utc 1741622400000000)).
  - reflexivity.
  - reflexivity.
  - vm_compute. reflexivity.
Defined.

(** ** C1: the watermark never goes back *)

Lemma cycles_snoc envs env c d :
  cycles (envs ++ [env]) c d = cycle env c (cycles envs c d).
Proof. revert d. induction envs as [|e envs IH]; intros d; cbn; [done|apply IH]. Qed.

Lemma watermark_insert d c t : watermark (<[c := Some t]> d) c = t.
Proof. unfold watermark, stored. rewrite lookup_insert_eq. cbn. lia. Qed.

Lemma dt_ne_aware a b :
  is_aware a = true -> is_aware b = true ->
  dt_ne a b = negb (ordinal a =? ordinal b).
Proof.
  unfold dt_ne, same_kind, is_aware.
  by destruct (utcoffset a), (utcoffset b).
Qed.

(** What one cycle does to the table and which saves it issues. *)
Lemma cycle_saves env c d :
  let out := run (check_collection env c) d in
  (saves (trace out.2) = [] /\ db out.2 = d) \/
  (exists t,
     saves (trace out.2) = [(c, t)] /\ out.1 = Ok tt /\
     ordinal t = max_from (ordinal (loaded env d c))
                          (map sale_instant (notified (trace out.2))) /\
     ordinal (loaded env d c) < ordinal t /\
     is_aware t = true /\
     length (sent (trace out.2)) = length (notified (trace out.2)) /\
     db out.2 = if save_fails env c then d else <[c := Some (ordinal t)]> d).
Proof.
  cbv zeta.
  destruct (cycle_outcome env c d) as [e He|cfg Hc Hch|cfg e Hc Hch Hs
    |cfg sales evs e Hc Hch Hs Hev Hsv Hh|cfg sales evs acc Hc Hch Hs Hev Hsv Ho Ha Hl];
    cbn [fst snd trace db].
  - by left.
  - by left.
  - left. by rewrite (proj2 (proj2 (prologue_quiet env c cfg d))).
  - left. by rewrite saves_app, (proj2 (proj2 (prologue_quiet env c cfg d))), Hsv.
  - destruct (prologue_quiet env c cfg d) as (Hn1 & Hs1 & Hv1).
    destruct (epilogue_quiet env c (loaded env d c) acc) as (Hn2 & Hs2 & Hv2).
    rewrite !saves_app, !notified_app, !sent_app, Hn1, Hs1, Hv1, Hn2, Hs2, Hv2, Hsv, !app_nil_r.
    cbn [app]. unfold commit.
    rewrite dt_ne_aware in * by (done || apply loaded_aware).
    destruct (ordinal acc.1.1 =? ordinal (loaded env d c)) eqn:E; cbn [negb andb].
    + by left.
    + right. exists acc.1.1. apply Z.eqb_neq in E.
      pose proof (max_from_ge (ordinal (loaded env d c))
                    (map sale_instant (notified evs))) as Hge.
      repeat split; try done; [lia|]. by destruct (save_fails env c).
Qed.

(** A cycle on [c] leaves the rows of the other collections alone. *)
Lemma cycle_other_collections env c d c' :
  c' <> c -> cycle env c d !! c' = d !! c'.
Proof.
  intros Hne. unfold cycle.
  destruct (cycle_saves env c d) as [[_ ->]|(t & _ & _ & _ & _ & _ & _ & ->)]; [done|].
  destruct (save_fails env c); [done|]. by rewrite lookup_insert_ne.
Qed.

(** C1. Over any sequence of poll cycles on one collection in which every
    load returns the stored value, the watermark after cycle n+1 is at least
    the watermark after cycle n.  Within one such cycle a save, if issued,
    carries the maximum of the loaded watermark and the timestamps of the
    records notified, all of which were sent; the stored watermark is never
    lowered. *)
Theorem C1_watermark_monotone c envs env d :
  Forall (fun e => load_fails e c = false) (envs ++ [env]) ->
  let before := cycles envs c d in
  let out := run (check_collection env c) before in
  watermark before c <= watermark (cycles (envs ++ [env]) c d) c /\
  (forall c' t, (c', t) ∈ saves (trace out.2) ->
     c' = c /\
     ordinal t = max_from (watermark before c) (map sale_instant (notified (trace out.2))) /\
     length (sent (trace out.2)) = length (notified (trace out.2))) /\
  watermark before c <= watermark (db out.2) c /\
  (db out.2 = before \/
   exists t, (c, t) ∈ saves (trace out.2) /\ db out.2 = <[c := Some (ordinal t)]> before).
Proof.
  intros Hall. rewrite cycles_snoc. unfold cycle.
  apply Forall_app in Hall as [_ Hload]. apply Forall_inv in Hload.
  generalize (cycles envs c d). clear d envs. intros d. cbv zeta.
  assert (Hl : loaded env d c = stored d c) by (unfold loaded; by rewrite Hload).
  destruct (cycle_saves env c d) as [[Hsv Hdb]|(t & Hsv & _ & Hmax & Hlt & _ & Hlen & Hdb)];
    rewrite Hsv, Hdb.
  - split; [lia|]. split; [by intros c' t ?%elem_of_nil|]. split; [lia|by left].
  - rewrite Hl in *. fold (watermark d c) in *.
    assert (watermark d c <=
            watermark (if save_fails env c then d else <[c := Some (ordinal t)]> d) c).
    { destruct (save_fails env c); [lia|]. rewrite watermark_insert. lia. }
    split; [done|]. split; [|split; [done|]].
    + intros c' t' [= -> ->]%list_elem_of_singleton. done.
    + destruct (save_fails env c); [by left|]. right. exists t.
      split; [apply list_elem_of_here|done].
Qed.

Lemma C1_witness :
  let before := cycles [calm_env (feed_of [sale_stale]) T_2200] "dopedoges" (db_at 0) in
  let out := run (check_collection (calm_env (feed_of [sale_2100]) T_2200) "dopedoges")
                 before in
  watermark before "dopedoges"
  <= watermark (cycles ([calm_env (feed_of [sale_stale]) T_2200]
                        ++ [calm_env (feed_of [sale_2100]) T_2200])
                       "dopedoges" (db_at 0)) "dopedoges" /\
  (forall c' t, (c', t) ∈ saves (trace out.2) ->
     c' = "dopedoges" /\
     ordinal t = max_from (watermark before "dopedoges")
                          (map sale_instant (notified (trace out.2))) /\
     length (sent (trace out.2)) = length (notified (trace out.2))) /\
  watermark before "dopedoges" <= watermark (db out.2) "dopedoges" /\
  (db out.2 = before \/
   exists t, ("dopedoges", t) ∈ saves (trace out.2) /\
             db out.2 = <["dopedoges" := Some (ordinal t)]> before).
Proof.
  apply (C1_watermark_monotone "dopedoges"
           [calm_env (feed_of [sale_stale]) T_2200]
           (calm_env (feed_of [sale_2100]) T_2200) (db_at 0)).
  repeat constructor.
Defined.

(** ** Sorting keeps the batch *)

Lemma insert_by_elem {A} reverse k (x : A) l y :
  y ∈ insert_by reverse k x l <-> y = (k, x) \/ y ∈ l.
Proof.
  induction l as [|[k' x'] l IH]; cbn.
  - rewrite list_elem_of_singleton. split; [by left|]. intros [|H]; [done|].
    by apply elem_of_nil in H.
  - destruct (if reverse then k' <=? k else k <=? k').
    + by rewrite elem_of_cons.
    + rewrite !elem_of_cons, IH. tauto.
Qed.

Lemma sort_by_elem {A} reverse (l : list (Z * A)) y :
  y ∈ sort_by reverse l <-> y ∈ l.
Proof.
  induction l as [|[k x] l IH]; cbn; [done|].
  by rewrite insert_by_elem, elem_of_cons, IH.
Qed.

(** [sort_by] is the sort Python performs: its result is a rearrangement
    of its input, ordered by key. *)
Lemma insert_by_perm {A} reverse k (x : A) l :
  insert_by reverse k x l ≡ₚ (k, x) :: l.
Proof.
  induction l as [|[k' y] l IH]; cbn; [done|].
  destruct (if reverse then _ else _); [done|].
  rewrite IH. apply Permutation_swap.
Qed.

Lemma sort_by_perm {A} reverse (l : list (Z * A)) : sort_by reverse l ≡ₚ l.
Proof.
  induction l as [|[k x] l IH]; cbn; [done|]. by rewrite insert_by_perm, IH.
Qed.

Lemma insert_by_sorted {A} reverse k (x : A) l :
  Sorted (key_order reverse) l -> Sorted (key_order reverse) (insert_by reverse k x l).
Proof.
  induction 1 as [|[k' y] l Hs IH Hhd]; cbn.
  - by repeat constructor.
  - destruct (if reverse then k' <=? k else k <=? k') eqn:Hcmp.
    + repeat constructor; [done|done|].
      unfold key_order; cbn. destruct reverse; by apply Z.leb_le.
    + constructor; [done|].
      assert (Hk : key_order reverse (k', y) (k, x)).
      { unfold key_order; cbn. destruct reverse; apply Z.leb_gt in Hcmp; lia. }
      destruct l as [|[k'' z] l]; cbn in *; [by constructor|].
      destruct (if reverse then k'' <=? k else k <=? k''); constructor; [done|].
      by apply HdRel_inv in Hhd.
Qed.

Lemma sort_by_sorted {A} reverse (l : list (Z * A)) :
  Sorted (key_order reverse) (sort_by reverse l).
Proof.
  induction l as [|[k x] l IH]; cbn; [constructor|]. by apply insert_by_sorted.
Qed.

Lemma mapR_Forall2 {A B} (f : A -> result B) l ks :
  mapR f l = Ok ks -> Forall2 (fun x k => f x = Ok k) l ks.
Proof.
  revert ks. induction l as [|x l IH]; intros ks; cbn.
  - intros [= <-]. constructor.
  - run_M. destruct (f x) as [k|] eqn:Hk; [|done].
    destruct (mapR f l) as [ks'|]; [|done]. intros [= <-].
    constructor; [done|by apply IH].
Qed.

Lemma mapR_raises {A B} (f : A -> result B) l x e :
  x ∈ l -> f x = Raise e -> exists e', mapR f l = Raise e'.
Proof.
  induction l as [|y l IH]; intros Hx Hf.
  - by apply elem_of_nil in Hx.
  - cbn. run_M. apply elem_of_cons in Hx as [->|Hx].
    + rewrite Hf. by eexists.
    + destruct (f y); [|by eexists].
      destruct (IH Hx Hf) as [e' ->]. by eexists.
Qed.

(** The pairs the sort works on: each record under the number of its date. *)
Lemma keyed_elem items keys k r :
  Forall2 (fun x d => sale_date x = Ok d) items keys ->
  (k, r) ∈ combine (map ordinal keys) items -> r ∈ items /\ k = sale_instant r.
Proof.
  induction 1 as [|x d items keys Hx _ IH]; cbn.
  - by intros ?%elem_of_nil.
  - intros [[= -> ->]|Hin]%elem_of_cons.
    + split; [apply list_elem_of_here|]. unfold sale_instant. by rewrite Hx.
    + destruct (IH Hin). split; [by apply list_elem_of_further|done].
Qed.

Lemma keyed_all items keys r :
  Forall2 (fun x d => sale_date x = Ok d) items keys ->
  r ∈ items -> (sale_instant r, r) ∈ combine (map ordinal keys) items.
Proof.
  induction 1 as [|x d items keys Hx _ IH]; cbn.
  - by intros ?%elem_of_nil.
  - intros [->|Hin]%elem_of_cons.
    + unfold sale_instant. rewrite Hx. apply list_elem_of_here.
    + apply list_elem_of_further. by apply IH.
Qed.

Lemma sorted_by_date_elem reverse items sales r :
  sorted_by_date reverse (JArr items) = Ok sales -> r ∈ sales <-> r ∈ items.
Proof.
  unfold sorted_by_date. run_M.
  destruct (mapR sale_date items) as [keys|] eqn:Hk; [|done].
  apply mapR_Forall2 in Hk.
  destruct (_ && _); [done|]. intros [= <-].
  rewrite list_elem_of_In, in_map_iff. split.
  - intros ([k r'] & <- & Hin). apply list_elem_of_In, sort_by_elem in Hin.
    by apply (keyed_elem _ _ _ _ Hk) in Hin as [? _].
  - intros Hr. exists (sale_instant r, r). split; [done|].
    apply list_elem_of_In, sort_by_elem. by apply keyed_all.
Qed.

(** ** C6: a failed fetch *)

Lemma dt_ne_refl a : dt_ne a a = false.
Proof.
  unfold dt_ne, same_kind. destruct (utcoffset a); by rewrite Z.eqb_refl.
Qed.

(** A cycle whose loop changes nothing: it prints that there is nothing new
    and leaves the table alone. *)
Lemma check_collection_idle env c cfg d sales :
  config c = Ok cfg -> get_channel env (channel_id cfg) = true ->
  sorted_by_date false (payload (http_get env (api_url cfg))) = Ok sales ->
  (forall acc w,
     foldM (visit env (channel_id cfg) c (loaded env d c) (utc (utcnow env c))) acc sales w
     = (Ok acc, w)) ->
  run (check_collection env c) d =
  (Ok tt, {| db := d; trace := prologue env c cfg d ++ [Print (LogNoNewSales c)] |}).
Proof.
  intros Hc Hch Hs Hloop. unfold run. rewrite check_collection_eq, Hc, Hch. cbn [db].
  cbv zeta. rewrite Hs, Hloop. unfold commit, epilogue. cbn [fst snd].
  rewrite dt_ne_refl. done.
Qed.

(** C6. When the fetch fails, by a status other than 200 or by a transport
    error, [fetch_sales] returns the empty list, and the cycle completes
    without a save: the table and the watermark are what they were, and
    nothing is notified. *)
Theorem C6_fetch_failure_is_noop env c cfg d :
  config c = Ok cfg ->
  fetch_failed (http_get env (api_url cfg)) = true ->
  (forall w, (fetch_sales env c w).1 = Ok (JArr [])) /\
  let out := run (check_collection env c) d in
  out.1 = Ok tt /\ db out.2 = d /\ watermark (db out.2) c = watermark d c /\
  saves (trace out.2) = [] /\ notified (trace out.2) = [].
Proof.
  intros Hc Hfail.
  assert (Hp : payload (http_get env (api_url cfg)) = JArr []).
  { unfold payload, fetch_failed in *.
    destruct (http_get env (api_url cfg)) as [|status [data|]]; try done.
    by destruct (status =? 200). }
  split.
  - intros w. by rewrite fetch_sales_eq, Hc, Hp.
  - cbv zeta. destruct (get_channel env (channel_id cfg)) eqn:Hch.
    + rewrite (check_collection_idle env c cfg d []); try done; [|by rewrite Hp].
      cbn [fst snd db trace].
      destruct (prologue_quiet env c cfg d) as (Hn & _ & Hs).
      by rewrite saves_app, notified_app, Hn, Hs.
    + unfold run. rewrite check_collection_eq, Hc, Hch. done.
Qed.

Lemma C6_witness :
  (forall w, (fetch_sales (calm_env (Answer 503 None) T_2200) "dopedoges" w).1 = Ok (JArr [])) /\
  let out := run (check_collection (calm_env (Answer 503 None) T_2200) "dopedoges")
                 (db_at T_2100) in
  out.1 = Ok tt /\ db out.2 = db_at T_2100 /\
  watermark (db out.2) "dopedoges" = watermark (db_at T_2100) "dopedoges" /\
  saves (trace out.2) = [] /\ notified (trace out.2) = [].
Proof.
  apply (C6_fetch_failure_is_noop (calm_env (Answer 503 None) T_2200) "dopedoges"
           dopedoges (db_at T_2100)).
  - reflexivity.
  - reflexivity.
Defined.

(** ** C8: records that are not sales *)

Lemma visit_not_a_sale env ch c last now acc r w :
  not_a_sale r = true -> visit env ch c last now acc r w = (Ok acc, w).
Proof.
  intros Hr. rewrite visit_eq. unfold classify. run_M.
  destruct r as [| | | | |kvs]; try done. cbn in *.
  destruct (assoc "status" kvs) as [st|]; cbn in *;
    [destruct (eq_str st "bought"); cbn in *; [|done]|done].
  destruct (assoc "buyerAddress" kvs) as [b|]; cbn in *; [|done].
  by destruct (truthy b).
Qed.

Lemma foldM_not_a_sale env ch c last now sales : forall acc w,
  Forall (fun r => not_a_sale r = true) sales ->
  foldM (visit env ch c last now) acc sales w = (Ok acc, w).
Proof.
  induction sales as [|r sales IH]; intros acc w Hall; [done|].
  apply Forall_cons in Hall as [Hr Hall].
  rewrite foldM_cons, visit_not_a_sale by done. by apply IH.
Qed.

(** C8. A fetched record that is not a sale is dropped by the first test of
    its loop iteration, whatever the watermark and the clock: the iteration
    returns the loop variables and the world untouched, and the record is
    never handed to the notifier.  A batch of such records alone gives no
    delivery and no save; the table is unchanged, and a cycle that completes
    prints only that there are no new sales (no skip count). *)
Theorem C8_non_sales_discarded env c d r :
  not_a_sale r = true ->
  (forall ch last now acc w, visit env ch c last now acc r w = (Ok acc, w)) /\
  (r ∉ notified (trace (run (check_collection env c) d).2)) /\
  (forall cfg items,
     config c = Ok cfg ->
     payload (http_get env (api_url cfg)) = JArr items ->
     Forall (fun r' => not_a_sale r' = true) items ->
     let out := run (check_collection env c) d in
     notified (trace out.2) = [] /\ sent (trace out.2) = [] /\
     saves (trace out.2) = [] /\ db out.2 = d /\
     (get_channel env (channel_id cfg) = true -> out.1 = Ok tt ->
      trace out.2 = prologue env c cfg d ++ [Print (LogNoNewSales c)])).
Proof.
  intros Hr. split; [|split].
  - intros. by apply visit_not_a_sale.
  - intros Hn%cycle_notified. unfold classify in Hn. run_M.
    destruct r as [| | | | |kvs]; try done. cbn in *.
    destruct (assoc "status" kvs) as [st|]; cbn in *;
      [destruct (eq_str st "bought"); cbn in *; [|done]|done].
    destruct (assoc "buyerAddress" kvs) as [b|]; cbn in *; [|done].
    by destruct (truthy b).
  - intros cfg items Hc Hp Hall. cbv zeta.
    destruct (prologue_quiet env c cfg d) as (Hn & Hs & Hv).
    destruct (get_channel env (channel_id cfg)) eqn:Hch.
    2:{ unfold run. rewrite check_collection_eq, Hc, Hch. done. }
    destruct (sorted_by_date false (JArr items)) as [sales|e] eqn:Hsort.
    + rewrite (check_collection_idle env c cfg d sales); try done; [|by rewrite Hp|].
      * cbn [fst snd db trace]. by rewrite saves_app, notified_app, sent_app, Hn, Hs, Hv.
      * intros acc w. apply foldM_not_a_sale.
        rewrite Forall_forall in *. intros x Hx. apply Hall.
        by apply (sorted_by_date_elem false items sales x Hsort).
    + unfold run. rewrite check_collection_eq, Hc, Hch, Hp, Hsort. cbn. done.
Qed.

Lemma C8_witness :
  (forall ch last now acc w,
     visit (calm_env (feed_of [sale_listed]) T_2200) ch "dopedoges" last now acc sale_listed w
     = (Ok acc, w)) /\
  (sale_listed ∉ notified (trace (run (check_collection (calm_env (feed_of [sale_listed]) T_2200)
                                         "dopedoges") ∅).2)) /\
  let out := run (check_collection (calm_env (feed_of [sale_listed]) T_2200) "dopedoges") ∅ in
  notified (trace out.2) = [] /\ sent (trace out.2) = [] /\
  saves (trace out.2) = [] /\ db out.2 = ∅ /\
  trace out.2 = prologue (calm_env (feed_of [sale_listed]) T_2200) "dopedoges" dopedoges ∅
                ++ [Print (LogNoNewSales "dopedoges")].
Proof.
  destruct (C8_non_sales_discarded (calm_env (feed_of [sale_listed]) T_2200) "dopedoges" ∅
              sale_listed) as (Hv & Hn & Hb).
  - reflexivity.
  - split; [exact Hv|]. split; [exact Hn|].
    destruct (Hb dopedoges [sale_listed]) as (H1 & H2 & H3 & H4 & H5).
    + reflexivity.
    + reflexivity.
    + repeat constructor.
    + exact (conj H1 (conj H2 (conj H3 (conj H4 (H5 eq_refl eq_refl))))).
Defined.

(** ** C9: the commands and the watermark store *)

Lemma store_free_ret {A} (a : A) : store_free (mret a).
Proof. intros w. split; [done|]. exists []. by rewrite app_nil_r. Qed.

Lemma store_free_lift {A} (r : result A) : store_free (lift r).
Proof. intros w. split; [done|]. exists []. by rewrite app_nil_r. Qed.

Lemma store_free_emit e : is_store_call e = false -> store_free (emit e).
Proof. intros He w. split; [done|]. exists [e]. split; [done|]. by constructor. Qed.

Lemma store_free_bind {A B} (m : M A) (k : A -> M B) :
  store_free m -> (forall a, store_free (k a)) -> store_free (m ≫= k).
Proof.
  intros Hm Hk w. unfold mbind, M_bind.
  destruct (Hm w) as (Hd & evs & Ht & He).
  destruct (m w) as [[a|e] w1]; cbn [snd] in *.
  - destruct (Hk a w1) as (Hd' & evs' & Ht' & He').
    split; [congruence|]. exists (evs ++ evs').
    split; [by rewrite Ht', Ht, app_assoc|]. by apply Forall_app.
  - split; [done|]. by exists evs.
Qed.

Lemma store_free_channel_send env ch e : store_free (channel_send env ch e).
Proof.
  intros w. unfold channel_send. destruct (send_fails env (trace w) e).
  - split; [done|]. exists []. by rewrite app_nil_r.
  - by apply store_free_emit.
Qed.

Lemma store_free_ctx_send env msg : store_free (ctx_send env msg).
Proof.
  intros w. unfold ctx_send. destruct (ctx_send_fails env (trace w)).
  - split; [done|]. exists []. by rewrite app_nil_r.
  - by apply store_free_emit.
Qed.

Create HintDb store_free.
#[local] Hint Resolve store_free_ret store_free_lift store_free_bind
  store_free_channel_send store_free_ctx_send : store_free.
#[local] Hint Extern 1 (store_free (emit _)) =>
  apply store_free_emit; reflexivity : store_free.

Lemma store_free_fetch_sales env c : store_free (fetch_sales env c).
Proof.
  unfold fetch_sales, print.
  apply store_free_bind; [auto with store_free|intros cfg].
  apply store_free_bind; [auto with store_free|intros _].
  destruct (http_get env (api_url cfg)) as [|status [data|]];
    repeat case_match; auto 10 with store_free.
Qed.

Lemma store_free_post_sale_to_discord env ch c sale :
  store_free (post_sale_to_discord env ch c sale).
Proof. unfold post_sale_to_discord, print. auto 30 with store_free. Qed.

Lemma store_free_post_last_sale env c : store_free (post_last_sale env c).
Proof.
  unfold post_last_sale.
  destruct (lookup_config c COLLECTIONS) as [cfg|]; [|apply store_free_ctx_send].
  destruct (negb _); [apply store_free_ctx_send|].
  apply store_free_bind; [apply store_free_fetch_sales|intros sales].
  destruct (negb _); [apply store_free_ctx_send|].
  apply store_free_bind; [apply store_free_lift|intros [|last_sale ?]].
  - apply store_free_lift.
  - apply store_free_bind; [apply store_free_post_sale_to_discord|intros _].
    apply store_free_ctx_send.
Qed.

Lemma store_free_test_sale env c : store_free (test_sale env c).
Proof.
  unfold test_sale, print.
  destruct (lookup_config c COLLECTIONS) as [cfg|]; [|apply store_free_ctx_send].
  destruct (negb _); [apply store_free_ctx_send|].
  apply store_free_bind; [by apply store_free_emit|intros _].
  apply store_free_bind; [apply store_free_post_sale_to_discord|intros _].
  apply store_free_ctx_send.
Qed.

(** C9. Neither command calls [load_last_sale_timestamp] or
    [save_last_sale_timestamp]: whatever the collection named, the outside
    and the table, a run of [post_last_sale] or of [test_sale] makes no
    store call and leaves the table, hence the watermark of every
    collection, as it was. *)
Theorem C9_commands_bypass_watermark env c d :
  let last := run (post_last_sale env c) d in
  let test := run (test_sale env c) d in
  (db last.2 = d /\ Forall (fun e => is_store_call e = false) (trace last.2)) /\
  (db test.2 = d /\ Forall (fun e => is_store_call e = false) (trace test.2)) /\
  (forall c', stored (db last.2) c' = stored d c' /\ stored (db test.2) c' = stored d c').
Proof.
  cbv zeta. unfold run.
  destruct (store_free_post_last_sale env c {| db := d; trace := [] |})
    as (Hd1 & evs1 & Ht1 & He1).
  destruct (store_free_test_sale env c {| db := d; trace := [] |})
    as (Hd2 & evs2 & Ht2 & He2).
  cbn in *. rewrite Hd1, Hd2, Ht1, Ht2. done.
Qed.

(** ** C10: [post_last_sale] posts the latest record, unfiltered *)

Lemma bind_eq {A B} (m : M A) (k : A -> M B) w :
  (m ≫= k) w = match m w with
               | (Ok a, w') => k a w'
               | (Raise e, w') => (Raise e, w')
               end.
Proof. done. Qed.



Lemma dated_batch_sorts reverse aw items :
  Forall (fun r => exists ts, sale_date r = Ok ts /\ is_aware ts = aw) items ->
  exists sales, sorted_by_date reverse (JArr items) = Ok sales /\
                length sales = length items.
Proof.
  intros Hall.
  assert (exists keys, mapR sale_date items = Ok keys /\
                       (existsb is_aware keys &&
                        existsb (fun d => negb (is_aware d)) keys) = false /\
                       length keys = length items) as (keys & Hk & Hn & Hl).
  { assert (exists keys, mapR sale_date items = Ok keys /\
                         Forall (fun d => is_aware d = aw) keys /\
                         length keys = length items) as (keys & Hk & Hkind & Hl).
    { induction Hall as [|r items (ts & Hts & Haw) _ (keys & Hk & Hkind & Hl)].
      - by exists [].
      - exists (ts :: keys). cbn. run_M. rewrite Hts, Hk. cbn. rewrite Hl.
        split; [done|]. split; [by constructor|done]. }
    exists keys. split; [done|]. split; [|done].
    clear -Hkind. destruct aw.
    - assert (existsb (fun d => negb (is_aware d)) keys = false) as ->;
        [|apply andb_false_r].
      induction Hkind as [|k keys Hk _ IH]; [done|]. cbn. by rewrite Hk, IH.
    - assert (existsb is_aware keys = false) as ->; [|done].
      induction Hkind as [|k keys Hk _ IH]; [done|]. cbn. by rewrite Hk, IH. }
  unfold sorted_by_date. run_M. rewrite Hk, Hn.
  eexists. split; [done|].
  rewrite length_map.
  assert (Hlen : forall (l : list (Z * json)), length (sort_by reverse l) = length l).
  { assert (Hins : forall k x (l : list (Z * json)),
              length (insert_by reverse k x l) = S (length l)).
    { intros k x l. induction l as [|[k' y] l IH]; cbn; [done|].
      destruct (if reverse then _ else _); cbn; [done|by rewrite IH]. }
    induction l as [|[k x] l IH]; cbn; [done|]. by rewrite Hins, IH. }
  rewrite Hlen, length_combine, length_map. lia.
Qed.



(** ** C7: one fresh sale on an empty table *)

Lemma py_get_string x k v d :
  py_get x k JNull = Ok (JStr v) -> py_get x k d = Ok (JStr v).
Proof.
  destruct x as [| | | | |kvs]; try done. cbn.
  destruct (assoc k kvs); [done|]. discriminate.
Qed.

Lemma price_7000000000000 :
  exists x, price_doge (JInt 7000000000000) = Ok x /\ format_2f x = "70000.00".
Proof. eexists. split; vm_compute; reflexivity. Qed.

(** C7. The watermark is the epoch (the sentinel of an empty table, or
    1970-01-01), the feed returns one record with status "bought", a
    non-empty buyer address, a timestamp one hour before the clock reading
    and raw price 7000000000000; the seller address is a string or absent,
    and channel and database answer.  Then the record is the one notified,
    the alert sent shows "70000.00 Doge", and the save carries the record's
    timestamp, which becomes the watermark. *)
Theorem C7_fresh_sale_is_delivered env c cfg d r buyer seller ts :
  config c = Ok cfg ->
  get_channel env (channel_id cfg) = true ->
  (forall tr e, send_fails env tr e = false) ->
  save_fails env c = false ->
  loaded env d c = datetime_min_utc \/ loaded env d c = utc 0 ->
  payload (http_get env (api_url cfg)) = JArr [r] ->
  py_get r "status" JNull = Ok (JStr "bought") ->
  py_get r "buyerAddress" JNull = Ok (JStr buyer) -> buyer <> "" ->
  py_get r "sellerAddress" (JStr "Myst") = Ok (JStr seller) ->
  py_get r "price" (JInt 0) = Ok (JInt 7000000000000) ->
  sale_date r = Ok ts -> is_aware ts = true ->
  ordinal ts = utcnow env c - 3600 * usec_per_sec ->
  0 < ordinal ts ->
  let out := run (check_collection env c) d in
  out.1 = Ok tt /\
  notified (trace out.2) = [r] /\
  (exists embed, sent (trace out.2) = [embed] /\ sold_for embed = "70000.00 Doge") /\
  saves (trace out.2) = [(c, ts)] /\
  watermark (db out.2) c = ordinal ts.
Proof.
  intros Hc Hch Hsend Hsave Hw Hp Hst Hb Hbne Hse Hpr Hts Haw Hhour Hpos.
  assert (Hlast : ordinal (loaded env d c) < ordinal ts).
  { assert (ordinal datetime_min_utc = MIN_INSTANT) as Hmin by (vm_compute; reflexivity).
    destruct Hw as [-> | ->]; [rewrite Hmin; unfold MIN_INSTANT|cbn]; lia. }
  pose proof (loaded_aware env d c) as Hla.
  assert (Hsort : sorted_by_date false (JArr [r]) = Ok [r]).
  { unfold sorted_by_date. run_M. rewrite Hts. cbn. by rewrite Haw. }
  assert (Hcl : classify (loaded env d c) (utc (utcnow env c)) r = Ok Deliver).
  { unfold classify, dt_sub, dt_le, same_kind. run_M. rewrite Hst, Hb, Hts. cbn.
    assert (truthy (JStr buyer) = true) as Htr.
    { cbn. destruct (String.eqb_spec buyer ""); done. }
    cbn in Htr. rewrite Htr. cbn.
    unfold is_aware in *. destruct (utcoffset ts) eqn:Ho; [|done].
    destruct (utcoffset (loaded env d c)) eqn:Ho'; [|done]. cbn.
    assert ((timedelta_24h <? utcnow env c - 0 - ordinal ts) = false) as ->.
    { apply Z.ltb_ge. unfold timedelta_24h, usec_per_sec in *. lia. }
    assert ((ordinal ts <=? ordinal (loaded env d c)) = false) as ->
      by (apply Z.leb_gt; lia).
    done. }
  destruct price_7000000000000 as (x & Hx & Hfmt).
  assert (Hr : render c r = Ok (ts, {| embed_color := color cfg;
                                       sold_for := "70000.00 Doge";
                                       buyer_field := first4 buyer +:+ "..." +:+ last4 buyer;
                                       seller_field := first4 seller +:+ "..." +:+ last4 seller |},
                                "70000.00")).
  { unfold render. run_M. rewrite Hpr. cbn -[price_doge]. rewrite Hx. cbn.
    rewrite Hts, Hse. cbn. rewrite (py_get_string _ _ _ _ Hb). cbn.
    rewrite Hc. cbn. by rewrite Hfmt. }
  assert (Hgt : dt_gt ts (loaded env d c) = Ok true).
  { unfold dt_gt, same_kind, is_aware in *.
    destruct (utcoffset ts), (utcoffset (loaded env d c)); try done.
    f_equal. apply Z.ltb_lt. lia. }
  assert (Hne : dt_ne ts (loaded env d c) = true).
  { rewrite dt_ne_aware by done. apply negb_true_iff, Z.eqb_neq. lia. }
  destruct (prologue_quiet env c cfg d) as (Hn1 & Hs1 & Hv1).
  cbv zeta. unfold run. rewrite check_collection_eq, Hc, Hch. cbn [db]. cbv zeta.
  rewrite Hp, Hsort, foldM_cons, visit_eq, Hcl, post_sale_to_discord_eq, Hr, Hsend.
  cbn [fst snd]. rewrite Hgt. cbn [foldM]. unfold mret, M_ret, commit, epilogue.
  cbn [fst snd db trace add Nat.ltb Nat.leb app]. rewrite Hne, Hsave. cbn [andb negb].
  unfold save_log. rewrite Hsave.
  rewrite !notified_app, !sent_app, !saves_app, Hn1, Hs1, Hv1.
  split; [done|]. split; [done|]. split; [by eexists|]. split; [done|].
  by rewrite watermark_insert.
Qed.

Lemma C7_witness :
  let out := run (check_collection (calm_env (feed_of [sale_2100]) T_2200) "dopedoges") ∅ in
  out.1 = Ok tt /\
  notified (trace out.2) = [sale_2100] /\
  (exists embed, sent (trace out.2) = [embed] /\ sold_for embed = "70000.00 Doge") /\
  saves (trace out.2) = [("dopedoges", utc T_2100)] /\
  watermark (db out.2) "dopedoges" = ordinal (utc T_2100).
Proof.
  apply (C7_fresh_sale_is_delivered (calm_env (feed_of [sale_2100]) T_2200) "dopedoges"
           dopedoges ∅ sale_2100 "DBuyer12345" "Myst" (utc T_2100)).
  - reflexivity.
  - reflexivity.
  - reflexivity.
  - reflexivity.
  - left. reflexivity.
  - reflexivity.
  - reflexivity.
  - reflexivity.
  - discriminate.
  - reflexivity.
  - reflexivity.
  - reflexivity.
  - reflexivity.
  - reflexivity.
  - reflexivity.
Defined.

(** ** C4: a delivery that fails *)

(** C4, as stated, fails.  Two new sales are fetched; the channel refuses
    the alert of the older one.  The cycle ends there with the exception:
    nothing is printed about the failure, the newer sale, which the filter
    lets through and whose alert would be accepted, is never handed to the
    notifier, and nothing is saved. *)
Lemma C4_counterexample :
  classify (loaded (first_send_fails_env (feed_of [sale_2100; sale_2000]) T_2200) ∅ "dopedoges")
           (utc T_2200) sale_2100 = Ok Deliver /\
  run (check_collection (first_send_fails_env (feed_of [sale_2100; sale_2000]) T_2200)
                        "dopedoges") ∅ =
    (Raise HTTPException,
     {| db := ∅;
        trace := [Load "dopedoges"; Print (LogCurrentTime "dopedoges" datetime_min_utc);
                  Fetch "dopedoges"; Print (LogFetched "dopedoges");
                  Notify "dopedoges" sale_2000] |}) /\
  ~ sale_2100 ∈ notified (trace (run (check_collection
        (first_send_fails_env (feed_of [sale_2100; sale_2000]) T_2200) "dopedoges") ∅).2).
Proof.
  split; [vm_compute; reflexivity|].
  assert (H : run (check_collection (first_send_fails_env (feed_of [sale_2100; sale_2000])
                                       T_2200) "dopedoges") ∅ =
    (Raise HTTPException,
     {| db := ∅;
        trace := [Load "dopedoges"; Print (LogCurrentTime "dopedoges" datetime_min_utc);
                  Fetch "dopedoges"; Print (LogFetched "dopedoges");
                  Notify "dopedoges" sale_2000] |})) by (vm_compute; reflexivity).
  split; [exact H|]. rewrite H. cbn.
  intros [=]%list_elem_of_singleton.
Qed.

(** C4, amended.  A delivery that fails ends the cycle.  When the channel
    refuses the alert of a record the loop delivers, the loop stops with
    that exception at that record, whatever records follow, having only
    notified it.  A cycle that ends with an exception leaves the table as it
    was and issues no save; when the exception is the channel's, the last
    thing in the trace is the notification of the refused record: nothing is
    printed for the failure and no later record is notified. *)
Theorem C4_delivery_failure_aborts_cycle env c d :
  (forall ch last now acc r rest w ts embed price,
     classify last now r = Ok Deliver ->
     render c r = Ok (ts, embed, price) ->
     send_fails env (trace w ++ [Notify c r]) embed = true ->
     foldM (visit env ch c last now) acc (r :: rest) w
     = (Raise HTTPException, add w [Notify c r])) /\
  (forall e,
     (run (check_collection env c) d).1 = Raise e ->
     let out := run (check_collection env c) d in
     db out.2 = d /\ saves (trace out.2) = [] /\
     (e = HTTPException ->
      exists evs r embed, trace out.2 = evs ++ [Notify c r] /\
                          send_fails env (trace out.2) embed = true)).
Proof.
  split.
  - intros ch last now acc r rest w ts embed price Hcl Hr Hs.
    by rewrite foldM_cons, visit_eq, Hcl, post_sale_to_discord_eq, Hr, Hs.
  - intros e. cbv zeta.
    destruct (cycle_outcome env c d) as [e' He|cfg Hc Hch|cfg e' Hc Hch Hs
      |cfg sales evs e' Hc Hch Hs Hev Hsv Hh|cfg sales evs acc Hc Hch Hs Hev Hsv Ho Ha Hl];
      cbn [fst snd trace db]; intros [= ->].
    + split; [done|]. split; [done|]. intros ->.
      apply config_raises in He. done.
    + destruct (prologue_quiet env c cfg d) as (_ & _ & Hv).
      split; [done|]. split; [done|]. intros ->. exfalso.
      revert Hs. unfold sorted_by_date. run_M.
      destruct (py_iter _) as [items|] eqn:Hi; cbn.
      * destruct (mapR sale_date items) as [keys|] eqn:Hk; cbn.
        -- by destruct (_ && _).
        -- intros [= ->]. clear -Hk. revert Hk.
           induction items as [|x items IH]; cbn; [done|]. run_M.
           destruct (sale_date x) eqn:Hx; cbn.
           ++ destruct (mapR sale_date items); [done|]. intros [= ->]. by apply IH.
           ++ intros [= ->]. by apply sale_date_raises in Hx as [|].
      * intros [= ->]. by destruct (payload _).
    + destruct (prologue_quiet env c cfg d) as (_ & _ & Hv).
      split; [done|]. split; [by rewrite saves_app, Hv, Hsv|].
      intros He. destruct (Hh He) as (evs' & r & embed & -> & Hsend).
      exists (prologue env c cfg d ++ evs'), r, embed.
      by rewrite <- app_assoc.
Qed.

Lemma C4_witness :
  foldM (visit (first_send_fails_env (feed_of [sale_2100; sale_2000]) T_2200)
               (channel_id dopedoges) "dopedoges" datetime_min_utc (utc T_2200))
        (datetime_min_utc, 0%nat, 0%nat) [sale_2000; sale_2100]
        {| db := ∅; trace := [] |}
  = (Raise HTTPException, add {| db := ∅; trace := [] |} [Notify "dopedoges" sale_2000]) /\
  let out := run (check_collection (first_send_fails_env (feed_of [sale_2100; sale_2000])
                                      T_2200) "dopedoges") ∅ in
  db out.2 = ∅ /\ saves (trace out.2) = [] /\
  exists evs r embed,
    trace out.2 = evs ++ [Notify "dopedoges" r] /\
    send_fails (first_send_fails_env (feed_of [sale_2100; sale_2000]) T_2200)
               (trace out.2) embed = true.
Proof.
  destruct (C4_delivery_failure_aborts_cycle
              (first_send_fails_env (feed_of [sale_2100; sale_2000]) T_2200)
              "dopedoges" ∅) as [Hloop Hcycle].
  split.
  - apply (Hloop (channel_id dopedoges) datetime_min_utc (utc T_2200)
             (datetime_min_utc, 0%nat, 0%nat) sale_2000 [sale_2100]
             {| db := ∅; trace := [] |} (utc 1741723200000000)
             {| embed_color := color dopedoges; sold_for := "0.01 Doge";
                buyer_field := "DBuy...2345"; seller_field := "Myst...Myst" |} "0.01").
    + vm_compute; reflexivity.
    + vm_compute; reflexivity.
    + reflexivity.
  - destruct (Hcycle HTTPException) as (H1 & H2 & H3).
    + vm_compute; reflexivity.
    + exact (conj H1 (conj H2 (H3 eq_refl))).
Defined.

(** ** C5: records without a usable date *)

(** C5, as stated, fails for an unparseable timestamp.  The feed returns a
    record whose date cannot be parsed, and a new sale.  Computing the sort
    keys raises ValueError: the cycle ends before the loop, the new sale is
    not delivered and nothing is saved. *)
Lemma C5_counterexample :
  sale_date sale_bad_date = Raise ValueError /\
  run (check_collection (calm_env (feed_of [sale_bad_date; sale_2100]) T_2200) "dopedoges") ∅ =
    (Raise ValueError,
     {| db := ∅;
        trace := [Load "dopedoges"; Print (LogCurrentTime "dopedoges" datetime_min_utc);
                  Fetch "dopedoges"; Print (LogFetched "dopedoges")] |}).
Proof. split; vm_compute; reflexivity. Qed.

(** C5, amended.  For a record of the fetched batch:
    - if it has no date field, its timestamp is 1970-01-01T00:00:00Z, and
      once the clock is more than 24 hours past that instant, or the
      watermark is at or after it, its loop iteration is a skip and it is
      never handed to the notifier;
    - if its date is a string that does not parse, the cycle ends with an
      exception before the loop: only the load and the fetch have happened,
      and the table is unchanged. *)
Theorem C5_missing_date_is_epoch_bad_date_aborts env c cfg d items r :
  config c = Ok cfg ->
  get_channel env (channel_id cfg) = true ->
  payload (http_get env (api_url cfg)) = JArr items ->
  r ∈ items ->
  let out := run (check_collection env c) d in
  (forall kvs,
     r = JObj kvs -> assoc "date" kvs = None ->
     sale_date r = Ok (utc 0) /\
     (timedelta_24h < utcnow env c \/ 0 <= ordinal (loaded env d c) ->
      (r ∉ notified (trace out.2)) /\
      forall ch acc w, exists acc',
        visit env ch c (loaded env d c) (utc (utcnow env c)) acc r w = (Ok acc', w) /\
        acc'.1.1 = acc.1.1)) /\
  (forall s,
     py_get r "date" (JStr "1970-01-01T00:00:00.000Z") = Ok (JStr s) ->
     fromisoformat (replace_Z s) = None ->
     (exists e, out.1 = Raise e) /\ db out.2 = d /\ trace out.2 = prologue env c cfg d).
Proof.
  intros Hc Hch Hp Hin. cbv zeta. split.
  - intros kvs -> Hnone.
    assert (Hd : sale_date (JObj kvs) = Ok (utc 0)).
    { unfold sale_date. run_M. rewrite Hnone. cbn. by vm_compute. }
    split; [done|]. intros Hdrop.
    pose proof (loaded_aware env d c) as Hla.
    assert (Hv : forall ch acc w, exists acc',
      visit env ch c (loaded env d c) (utc (utcnow env c)) acc (JObj kvs) w = (Ok acc', w) /\
      acc'.1.1 = acc.1.1).
    { intros ch acc w. rewrite visit_eq.
      unfold classify, dt_sub, dt_le, same_kind. run_M. rewrite Hd. cbn.
      destruct (eq_str _ "bought"); cbn; [|by eexists].
      destruct (truthy _); cbn; [|by eexists].
      unfold is_aware in Hla. destruct (utcoffset (loaded env d c)) eqn:Ho; [|done]. cbn.
      destruct (timedelta_24h <? _) eqn:Hage; [by eexists|].
      apply Z.ltb_ge in Hage.
      assert ((0 - 0 <=? ordinal (loaded env d c)) = true) as -> by (apply Z.leb_le; lia).
      by eexists. }
    split; [|done].
    intros Hn%cycle_notified.
    apply classify_deliver in Hn
      as (st & b & ts & _ & _ & _ & _ & Hts & _ & Hage & _ & Hlt).
    rewrite Hd in Hts. injection Hts as <-. cbn in Hage, Hlt. lia.
  - intros s Hs Hbad.
    assert (Hr : sale_date r = Raise ValueError).
    { unfold sale_date. run_M. rewrite Hs. cbn. by rewrite Hbad. }
    destruct (mapR_raises sale_date items r ValueError Hin Hr) as [e He].
    unfold run. rewrite check_collection_eq, Hc, Hch. cbn [db]. cbv zeta.
    rewrite Hp. unfold sorted_by_date. run_M. rewrite He. cbn.
    split; [by eexists|done].
Qed.

Lemma C5_witness :
  let out := run (check_collection (calm_env (feed_of [sale_no_date; sale_bad_date]) T_2200)
                                   "dopedoges") ∅ in
  (sale_date sale_no_date = Ok (utc 0) /\
   (sale_no_date ∉ notified (trace out.2)) /\
   forall ch acc w, exists acc',
     visit (calm_env (feed_of [sale_no_date; sale_bad_date]) T_2200) ch "dopedoges"
           (loaded (calm_env (feed_of [sale_no_date; sale_bad_date]) T_2200) ∅ "dopedoges")
           (utc (utcnow (calm_env (feed_of [sale_no_date; sale_bad_date]) T_2200) "dopedoges"))
           acc sale_no_date w = (Ok acc', w) /\
     acc'.1.1 = acc.1.1) /\
  ((exists e, out.1 = Raise e) /\ db out.2 = ∅ /\
   trace out.2 = prologue (calm_env (feed_of [sale_no_date; sale_bad_date]) T_2200)
                          "dopedoges" dopedoges ∅).
Proof.
  split.
  - destruct (C5_missing_date_is_epoch_bad_date_aborts
                (calm_env (feed_of [sale_no_date; sale_bad_date]) T_2200) "dopedoges"
                dopedoges ∅ [sale_no_date; sale_bad_date] sale_no_date) as [Hmissing _].
    + reflexivity.
    + reflexivity.
    + reflexivity.
    + apply list_elem_of_here.
    + destruct (Hmissing [("status", JStr "bought"); ("buyerAddress", JStr "DBuyer12345");
                          ("price", JInt 7000000000000)] eq_refl eq_refl) as [Hepoch Hskip].
      split; [exact Hepoch|]. apply Hskip. left. reflexivity.
  - destruct (C5_missing_date_is_epoch_bad_date_aborts
                (calm_env (feed_of [sale_no_date; sale_bad_date]) T_2200) "dopedoges"
                dopedoges ∅ [sale_no_date; sale_bad_date] sale_bad_date) as [_ Hbad].
    + reflexivity.
    + reflexivity.
    + reflexivity.
    + apply list_elem_of_further, list_elem_of_here.
    + apply (Hbad "not-a-date"); reflexivity.
Defined.

(** * More of the poll cycle *)

(** ** The loop delivers what the filter selects *)

Lemma selected_classify last now r :
  selected last now r = true <-> classify last now r = Ok Deliver.
Proof.
  unfold selected, classify, dt_sub, dt_le. run_M.
  destruct (py_get r "status" JNull) as [st|]; cbn; [|done].
  destruct (py_get r "buyerAddress" JNull) as [b|]; cbn;
    [|destruct (eq_str st "bought"); done].
  destruct (sale_date r) as [ts|]; cbn;
    [|destruct (eq_str st "bought"), (truthy b); done].
  destruct (eq_str st "bought"); cbn; [|done].
  destruct (truthy b); cbn; [|done].
  destruct (same_kind now ts); cbn; [|done].
  destruct (timedelta_24h <? ordinal now - ordinal ts) eqn:Hage;
    [apply Z.ltb_lt in Hage|apply Z.ltb_ge in Hage].
  - assert ((ordinal now - ordinal ts <=? timedelta_24h) = false) as ->
      by (apply Z.leb_gt; lia). done.
  - assert ((ordinal now - ordinal ts <=? timedelta_24h) = true) as ->
      by (apply Z.leb_le; lia). cbn.
    destruct (same_kind ts last); cbn; [|done].
    destruct (ordinal ts <=? ordinal last) eqn:Hle;
      [apply Z.leb_le in Hle|apply Z.leb_gt in Hle].
    + assert ((ordinal last <? ordinal ts) = false) as -> by (apply Z.ltb_ge; lia). done.
    + assert ((ordinal last <? ordinal ts) = true) as -> by (apply Z.ltb_lt; lia). done.
Qed.

Lemma selected_false last now r v :
  classify last now r = Ok v -> v <> Deliver -> selected last now r = false.
Proof.
  intros Hc Hv. destruct (selected last now r) eqn:Hs; [|done].
  apply selected_classify in Hs. congruence.
Qed.

Section LoopExact.

Variables (env : Env) (ch : Z) (c : string) (last now : datetime).

Lemma loop_exact sales : forall acc w,
  exists evs,
    (foldM (visit env ch c last now) acc sales w).2 = add w evs /\
    notified evs `prefix_of` List.filter (selected last now) sales /\
    (forall acc', (foldM (visit env ch c last now) acc sales w).1 = Ok acc' ->
                  notified evs = List.filter (selected last now) sales).
Proof.
  induction sales as [|sale sales IH]; intros acc w.
  - exists []. rewrite add_nil. cbn. done.
  - rewrite foldM_cons, visit_eq. cbn [List.filter].
    destruct (classify last now sale) as [v|e] eqn:Hc.
    2:{ exists []. rewrite add_nil. cbn. split; [done|]. split; [|done].
        apply prefix_nil. }
    destruct v.
    1-3: rewrite (selected_false _ _ _ _ Hc) by done; apply IH.
    rewrite (proj2 (selected_classify last now sale) Hc).
    rewrite post_sale_to_discord_eq.
    destruct (render c sale) as [[[ts embed] price]|e].
    2:{ exists [Notify c sale]. cbn. split; [done|]. split; [|done].
        apply (prefix_app [sale] []), prefix_nil. }
    destruct (send_fails _ _ _).
    { exists [Notify c sale]. cbn. split; [done|]. split; [|done].
      apply (prefix_app [sale] []), prefix_nil. }
    destruct (dt_gt ts acc.1.1) as [newer|e].
    2:{ exists [Notify c sale; ChannelSend ch embed; Print (LogPosted c price)].
        cbn. split; [done|]. split; [|done].
        apply (prefix_app [sale] []), prefix_nil. }
    destruct (IH (if newer then ts else acc.1.1, acc.1.2, acc.2)
                 (add w [Notify c sale; ChannelSend ch embed; Print (LogPosted c price)]))
      as (evs & Hw & Hpre & Hall).
    exists ([Notify c sale; ChannelSend ch embed; Print (LogPosted c price)] ++ evs).
    rewrite Hw, add_add. split; [done|]. rewrite notified_app. cbn [notified omap app].
    split.
    + by apply (prefix_app [sale]).
    + intros acc' Hok. by rewrite (Hall acc' Hok).
Qed.

End LoopExact.

(** What a cycle notifies, against the filter applied to the sorted batch. *)
Lemma cycle_selected env c cfg d sales :
  config c = Ok cfg ->
  get_channel env (channel_id cfg) = true ->
  sorted_by_date false (payload (http_get env (api_url cfg))) = Ok sales ->
  let out := run (check_collection env c) d in
  let sel := List.filter (selected (loaded env d c) (utc (utcnow env c))) sales in
  notified (trace out.2) `prefix_of` sel /\
  (out.1 = Ok tt -> notified (trace out.2) = sel).
Proof.
  intros Hc Hch Hs. cbv zeta. unfold run.
  rewrite check_collection_eq, Hc, Hch. cbn [db]. cbv zeta. rewrite Hs.
  set (w1 := add _ _).
  destruct (loop_exact env (channel_id cfg) c (loaded env d c) (utc (utcnow env c)) sales
              (loaded env d c, 0%nat, 0%nat) w1) as (evs & Hw & Hpre & Hall).
  destruct (prologue_quiet env c cfg d) as (Hn1 & _ & _).
  destruct (foldM _ _ _ _) as [[acc|e] w2]; cbn [fst snd] in *; subst w2.
  - destruct (epilogue_quiet env c (loaded env d c) acc) as (Hn2 & _ & _).
    unfold w1, add. cbn [db trace fst snd].
    rewrite !notified_app, Hn1, Hn2, app_nil_r. cbn [app].
    rewrite (Hall acc eq_refl). done.
  - unfold w1, add. cbn [db trace fst snd]. rewrite !notified_app, Hn1. cbn [app].
    split; [done|]. done.
Qed.

(** A cycle that completes has sent an alert for every record it notified. *)
Lemma cycle_completed_sent env c d :
  (run (check_collection env c) d).1 = Ok tt ->
  length (sent (trace (run (check_collection env c) d).2))
  = length (notified (trace (run (check_collection env c) d).2)).
Proof.
  destruct (cycle_outcome env c d) as [e He|cfg Hc Hch|cfg e Hc Hch Hs
    |cfg sales evs e Hc Hch Hs Hev Hsv Hh|cfg sales evs acc Hc Hch Hs Hev Hsv Ho Ha Hl];
    cbn [fst snd trace]; try done.
  intros _.
  destruct (prologue_quiet env c cfg d) as (Hn1 & Hs1 & _).
  destruct (epilogue_quiet env c (loaded env d c) acc) as (Hn2 & Hs2 & _).
  by rewrite !notified_app, !sent_app, Hn1, Hs1, Hn2, Hs2, !app_nil_r.
Qed.

(** X1. For a configured collection whose channel resolves and whose batch
    sorts, a cycle that completes has handed to the notifier exactly the
    records of the sorted batch that the filter selects, each once and in
    that order, and has sent an alert for each; a cycle that ends with an
    exception has handed over a prefix of that list. *)
Theorem X1_cycle_delivers_the_selected env c cfg d sales :
  config c = Ok cfg ->
  get_channel env (channel_id cfg) = true ->
  sorted_by_date false (payload (http_get env (api_url cfg))) = Ok sales ->
  let out := run (check_collection env c) d in
  let sel := List.filter (selected (loaded env d c) (utc (utcnow env c))) sales in
  notified (trace out.2) `prefix_of` sel /\
  (out.1 = Ok tt -> notified (trace out.2) = sel /\ length (sent (trace out.2)) = length sel).
Proof.
  intros Hc Hch Hs. cbv zeta.
  destruct (cycle_selected env c cfg d sales Hc Hch Hs) as [Hpre Hall].
  split; [done|]. intros Hok. rewrite <- (Hall Hok). split; [done|].
  by apply cycle_completed_sent.
Qed.

Lemma X1_witness :
  let out := run (check_collection (calm_env (feed_of [sale_2100; sale_listed; sale_2000])
                                             T_2200) "dopedoges") ∅ in
  let sel := List.filter (selected (loaded (calm_env (feed_of [sale_2100; sale_listed;
                                                                sale_2000]) T_2200)
                                           ∅ "dopedoges") (utc T_2200))
                         [sale_2000; sale_2100; sale_listed] in
  notified (trace out.2) `prefix_of` sel /\
  (out.1 = Ok tt -> notified (trace out.2) = sel /\ length (sent (trace out.2)) = length sel).
Proof.
  apply (X1_cycle_delivers_the_selected
           (calm_env (feed_of [sale_2100; sale_listed; sale_2000]) T_2200)
           "dopedoges" dopedoges ∅ [sale_2000; sale_2100; sale_listed]).
  - reflexivity.
  - reflexivity.
  - reflexivity.
Defined.

(** ** Deliveries are in date order *)

Lemma sorted_pairs_by_date (l : list (Z * json)) :
  Sorted (key_order false) l ->
  Forall (fun p => p.1 = sale_instant p.2) l ->
  StronglySorted by_date (map snd l).
Proof.
  intros Hs%Sorted_StronglySorted.
  2:{ intros x y z. unfold key_order. lia. }
  induction Hs as [|p l Hs IH Hall]; intros Hkey; cbn; [constructor|].
  apply Forall_cons in Hkey as [Hp Hkey]. constructor; [by apply IH|].
  apply Forall_forall.
  intros r (q & <- & Hq%list_elem_of_In)%list_elem_of_In%in_map_iff.
  pose proof (proj1 (Forall_forall _ _) Hall q Hq) as Hpq.
  pose proof (proj1 (Forall_forall _ _) Hkey q Hq) as Hkq.
  unfold by_date, key_order in *. cbn in *. lia.
Qed.

Lemma sorted_by_date_sorted v sales :
  sorted_by_date false v = Ok sales -> StronglySorted by_date sales.
Proof.
  unfold sorted_by_date. run_M.
  destruct (py_iter v) as [items|]; cbn; [|done].
  destruct (mapR sale_date items) as [keys|] eqn:Hk; cbn; [|done].
  apply mapR_Forall2 in Hk. destruct (_ && _); [done|]. intros [= <-].
  apply sorted_pairs_by_date; [apply sort_by_sorted|].
  rewrite Forall_forall. intros [k r] Hin%sort_by_elem.
  by apply (keyed_elem _ _ _ _ Hk) in Hin as [_ ->].
Qed.

Lemma filter_strongly_sorted {A} (R : A -> A -> Prop) f l :
  StronglySorted R l -> StronglySorted R (List.filter f l).
Proof.
  induction 1 as [|x l Hs IH Hall]; cbn; [constructor|].
  destruct (f x); [|done]. constructor; [done|].
  apply Forall_forall. intros y [Hy%list_elem_of_In _]%list_elem_of_In%filter_In.
  by apply (proj1 (Forall_forall _ _) Hall).
Qed.

(** X2. Whatever the outside does and however the cycle ends, the records
    it hands to the notifier are in ascending order of their dates: no
    record is notified after one dated later. *)
Theorem X2_deliveries_in_date_order env c d :
  StronglySorted by_date (notified (trace (run (check_collection env c) d).2)).
Proof.
  destruct (config c) as [cfg|e] eqn:Hc.
  2:{ unfold run. rewrite check_collection_eq, Hc. constructor. }
  destruct (get_channel env (channel_id cfg)) eqn:Hch.
  2:{ unfold run. rewrite check_collection_eq, Hc, Hch. constructor. }
  destruct (sorted_by_date false (payload (http_get env (api_url cfg))))
    as [sales|e] eqn:Hs.
  2:{ unfold run. rewrite check_collection_eq, Hc, Hch. cbn [db]. cbv zeta. rewrite Hs.
      cbn [snd trace add db]. rewrite notified_app.
      rewrite (proj1 (prologue_quiet env c cfg d)). constructor. }
  destruct (cycle_selected env c cfg d sales Hc Hch Hs) as [[k Hpre] _].
  apply (StronglySorted_app_1_l _ _ k). rewrite <- Hpre.
  apply filter_strongly_sorted. by eapply sorted_by_date_sorted.
Qed.

(** ** What a save carries *)

Lemma max_from_cases w l : max_from w l = w \/ max_from w l ∈ l.
Proof.
  unfold max_from. revert w. induction l as [|x l IH]; intros w; cbn; [by left|].
  destruct (IH (Z.max w x)) as [H|H].
  - rewrite H. destruct (Z.max_spec w x) as [[_ ->]|[_ ->]];
      [right; apply list_elem_of_here|by left].
  - right. by apply list_elem_of_further.
Qed.

Lemma max_from_elem w l x : x ∈ l -> x <= max_from w l.
Proof.
  unfold max_from. revert w. induction l as [|y l IH]; intros w Hx; cbn.
  - by apply elem_of_nil in Hx.
  - apply elem_of_cons in Hx as [->|Hx]; [|by apply IH].
    pose proof (max_from_ge (Z.max w y) l) as H. unfold max_from in H. lia.
Qed.

(** X3. A save never invents a watermark: the value a cycle saves is the
    timestamp of a record it notified in that cycle.  It is therefore later
    than the loaded watermark and at most 24 hours before the clock
    reading. *)
Theorem X3_saved_watermark_is_a_delivered_date env c d c' t :
  (c', t) ∈ saves (trace (run (check_collection env c) d).2) ->
  exists r ts,
    r ∈ notified (trace (run (check_collection env c) d).2) /\
    sale_date r = Ok ts /\ ordinal t = ordinal ts /\
    ordinal (loaded env d c) < ordinal t /\
    utcnow env c - timedelta_24h <= ordinal t.
Proof.
  intros Hin.
  destruct (cycle_saves env c d) as [[Hsv _]|(t0 & Hsv & _ & Hmax & Hlt & _ & _ & _)];
    rewrite Hsv in Hin; [by apply elem_of_nil in Hin|].
  apply list_elem_of_singleton in Hin as [= -> ->].
  destruct (max_from_cases (ordinal (loaded env d c))
              (map sale_instant (notified (trace (run (check_collection env c) d).2))))
    as [Heq|Hmem]; [lia|].
  rewrite <- Hmax in Hmem.
  apply list_elem_of_In, in_map_iff in Hmem as (r & Hr & Hrin%list_elem_of_In).
  pose proof (cycle_notified env c d r Hrin) as Hcl.
  apply classify_deliver in Hcl as (st & b & ts & _ & _ & _ & _ & Hts & _ & Hage & _ & _).
  unfold sale_instant in Hr. rewrite Hts in Hr. cbn in Hage.
  exists r, ts. repeat split; try done; lia.
Qed.

Lemma X3_witness :
  exists r ts,
    r ∈ notified (trace (run (check_collection (calm_env (feed_of [sale_2100; sale_2000])
                                                         T_2200) "dopedoges") ∅).2) /\
    sale_date r = Ok ts /\ ordinal (utc T_2100) = ordinal ts /\
    ordinal (loaded (calm_env (feed_of [sale_2100; sale_2000]) T_2200) ∅ "dopedoges")
    < ordinal (utc T_2100) /\
    utcnow (calm_env (feed_of [sale_2100; sale_2000]) T_2200) "dopedoges" - timedelta_24h
    <= ordinal (utc T_2100).
Proof.
  apply (X3_saved_watermark_is_a_delivered_date
           (calm_env (feed_of [sale_2100; sale_2000]) T_2200) "dopedoges" ∅
           "dopedoges" (utc T_2100)).
  vm_compute. apply list_elem_of_here.
Defined.

(** ** From one cycle to the next *)

(** After a cycle that completes, with load and save working, the watermark
    is the maximum of the previous one and the dates notified. *)
Lemma cycle_completed_watermark env c d :
  load_fails env c = false -> save_fails env c = false ->
  (run (check_collection env c) d).1 = Ok tt ->
  watermark (db (run (check_collection env c) d).2) c
  = max_from (watermark d c)
             (map sale_instant (notified (trace (run (check_collection env c) d).2))).
Proof.
  intros Hload Hsave.
  assert (Hl : loaded env d c = stored d c) by (unfold loaded; by rewrite Hload).
  destruct (cycle_outcome env c d) as [e He|cfg Hc Hch|cfg e Hc Hch Hs
    |cfg sales evs e Hc Hch Hs Hev Hsv Hh|cfg sales evs acc Hc Hch Hs Hev Hsv Ho Ha Hl'];
    cbn [fst snd trace db]; try done.
  intros _.
  destruct (prologue_quiet env c cfg d) as (Hn1 & _ & _).
  destruct (epilogue_quiet env c (loaded env d c) acc) as (Hn2 & _ & _).
  rewrite !notified_app, Hn1, Hn2, app_nil_r. cbn [app].
  unfold commit. rewrite dt_ne_aware by (done || apply loaded_aware).
  rewrite Hsave, Hl in *. fold (watermark d c) in *. cbn [negb andb].
  destruct (ordinal acc.1.1 =? watermark d c) eqn:E; cbn [negb andb].
  - apply Z.eqb_eq in E. lia.
  - by rewrite watermark_insert.
Qed.

Lemma stored_aware d c : is_aware (stored d c) = true.
Proof. unfold stored. by repeat case_match. Qed.

Lemma same_kind_aware a b : is_aware b = true -> same_kind a b = is_aware a.
Proof. unfold same_kind, is_aware. by destruct (utcoffset a), (utcoffset b). Qed.

Lemma filter_none {A} (f : A -> bool) l :
  (forall x, x ∈ l -> f x = false) -> List.filter f l = [].
Proof.
  induction l as [|x l IH]; intros H; cbn; [done|].
  rewrite (H x) by apply list_elem_of_here.
  apply IH. intros y Hy. by apply H, list_elem_of_further.
Qed.

(** X4. No redelivery.  A cycle completes, with load and save working;
    the next cycle fetches the same batch, its load works and its clock
    does not read earlier.  Then the next cycle hands nothing to the
    notifier, whatever else its outside does. *)
Theorem X4_next_cycle_delivers_nothing env1 env2 c cfg d :
  config c = Ok cfg ->
  get_channel env1 (channel_id cfg) = true ->
  load_fails env1 c = false -> save_fails env1 c = false ->
  (run (check_collection env1 c) d).1 = Ok tt ->
  load_fails env2 c = false ->
  payload (http_get env2 (api_url cfg)) = payload (http_get env1 (api_url cfg)) ->
  utcnow env1 c <= utcnow env2 c ->
  notified (trace (run (check_collection env2 c) (cycle env1 c d)).2) = [].
Proof.
  intros Hc Hch1 Hload1 Hsave1 Hok Hload2 Hfeed Hclock.
  destruct (sorted_by_date false (payload (http_get env1 (api_url cfg))))
    as [sales|e] eqn:Hs.
  2:{ exfalso. revert Hok. unfold run.
      rewrite check_collection_eq, Hc, Hch1. cbn [db]. cbv zeta. by rewrite Hs. }
  destruct (get_channel env2 (channel_id cfg)) eqn:Hch2.
  2:{ unfold run. by rewrite check_collection_eq, Hc, Hch2. }
  destruct (cycle_selected env1 c cfg d sales Hc Hch1 Hs) as [_ Hall1].
  specialize (Hall1 Hok).
  pose proof (cycle_completed_watermark env1 c d Hload1 Hsave1 Hok) as Hw.
  rewrite <- Hfeed in Hs.
  destruct (cycle_selected env2 c cfg (cycle env1 c d) sales Hc Hch2 Hs) as [[k Hpre] _].
  assert (Hnone : List.filter (selected (loaded env2 (cycle env1 c d) c)
                                        (utc (utcnow env2 c))) sales = []).
  { clear Hpre. apply filter_none.
    intros r Hr. destruct (selected _ _ r) eqn:Hsel; [exfalso|done].
      assert (Hl1 : loaded env1 d c = stored d c) by (unfold loaded; by rewrite Hload1).
      assert (Hl2 : loaded env2 (cycle env1 c d) c = stored (cycle env1 c d) c)
        by (unfold loaded; by rewrite Hload2).
      assert (Hsel1 : selected (loaded env1 d c) (utc (utcnow env1 c)) r = true).
      { revert Hsel. unfold selected.
        destruct (py_get r "status" JNull) as [st|]; [|done].
        destruct (py_get r "buyerAddress" JNull) as [b|]; [|done].
        destruct (sale_date r) as [ts|]; [|done].
        rewrite Hl1, Hl2. fold (watermark d c). unfold cycle in *.
        intros H. repeat (apply andb_true_iff in H as [H ?]).
        pose proof (max_from_ge (watermark d c)
          (map sale_instant (notified (trace (run (check_collection env1 c) d).2)))).
        repeat (apply andb_true_iff; split); try done.
        - apply Z.leb_le. cbn in *. lia.
        - rewrite same_kind_aware in * by apply stored_aware. done.
        - apply Z.ltb_lt. unfold watermark in *. lia. }
      assert (Hin : r ∈ notified (trace (run (check_collection env1 c) d).2)).
      { rewrite Hall1. apply list_elem_of_In, filter_In.
        split; [by apply list_elem_of_In|done]. }
      assert (Hle : sale_instant r <= watermark (cycle env1 c d) c).
      { unfold cycle. rewrite Hw. apply max_from_elem.
        apply list_elem_of_In, in_map. by apply list_elem_of_In. }
      revert Hsel. unfold selected, sale_instant in *.
      destruct (py_get r "status" JNull) as [st|]; [|done].
      destruct (py_get r "buyerAddress" JNull) as [b|]; [|done].
      destruct (sale_date r) as [ts|]; [|done].
      rewrite Hl2. intros H. apply andb_true_iff in H as [_ H%Z.ltb_lt].
      unfold watermark in *. lia. }
  rewrite Hnone in Hpre. symmetry in Hpre. by apply app_eq_nil in Hpre as [? _].
Qed.

Lemma X4_witness :
  notified (trace (run (check_collection (first_send_fails_env (feed_of [sale_2100; sale_2000])
                                                                (T_2200 + 60000000))
                                         "dopedoges")
                       (cycle (calm_env (feed_of [sale_2100; sale_2000]) T_2200)
                              "dopedoges" ∅)).2) = [].
Proof.
  apply (X4_next_cycle_delivers_nothing
           (calm_env (feed_of [sale_2100; sale_2000]) T_2200)
           (first_send_fails_env (feed_of [sale_2100; sale_2000]) (T_2200 + 60000000))
           "dopedoges" dopedoges ∅).
  - reflexivity.
  - reflexivity.
  - reflexivity.
  - reflexivity.
  - vm_compute. reflexivity.
  - reflexivity.
  - reflexivity.
  - vm_compute. discriminate.
Defined.



(** X6. The age test has no upper side.  A record of the batch with status
    "bought", a buyer, and a date after the loaded watermark and not
    earlier than the clock reading (a date in the future included) is
    handed to the notifier by a cycle that completes; when load and save
    work, the watermark then stands at or after that date. *)
Theorem X6_future_dated_record_is_delivered env c cfg d sales r status buyer ts :
  config c = Ok cfg ->
  get_channel env (channel_id cfg) = true ->
  sorted_by_date false (payload (http_get env (api_url cfg))) = Ok sales ->
  r ∈ sales ->
  py_get r "status" JNull = Ok status -> eq_str status "bought" = true ->
  py_get r "buyerAddress" JNull = Ok buyer -> truthy buyer = true ->
  sale_date r = Ok ts -> is_aware ts = true ->
  utcnow env c <= ordinal ts ->
  ordinal (loaded env d c) < ordinal ts ->
  let out := run (check_collection env c) d in
  out.1 = Ok tt ->
  r ∈ notified (trace out.2) /\
  (load_fails env c = false -> save_fails env c = false ->
   ordinal ts <= watermark (db out.2) c).
Proof.
  intros Hc Hch Hs Hr Hst Hbought Hb Hbuyer Hts Haw Hfuture Hnew. cbv zeta. intros Hok.
  destruct (cycle_selected env c cfg d sales Hc Hch Hs) as [_ Hall].
  assert (Hsel : selected (loaded env d c) (utc (utcnow env c)) r = true).
  { unfold selected. rewrite Hst, Hb, Hts, Hbought, Hbuyer. cbn [andb].
    rewrite (same_kind_aware ts) by apply loaded_aware. rewrite Haw.
    assert (same_kind (utc (utcnow env c)) ts = true) as ->.
    { unfold same_kind, is_aware in *. cbn. by destruct (utcoffset ts). }
    assert ((ordinal (utc (utcnow env c)) - ordinal ts <=? timedelta_24h) = true) as ->.
    { apply Z.leb_le. cbn. unfold timedelta_24h, usec_per_sec. lia. }
    cbn. by apply Z.ltb_lt. }
  assert (Hin : r ∈ notified (trace (run (check_collection env c) d).2)).
  { rewrite (Hall Hok). apply list_elem_of_In, filter_In.
    split; [by apply list_elem_of_In|done]. }
  split; [done|]. intros Hload Hsave.
  rewrite (cycle_completed_watermark env c d Hload Hsave Hok).
  apply max_from_elem.
  apply list_elem_of_In, in_map_iff. exists r.
  split; [|by apply list_elem_of_In]. unfold sale_instant. by rewrite Hts.
Qed.

Lemma X6_witness :
  let out := run (check_collection (calm_env (feed_of [sale_future]) T_2200) "dopedoges") ∅ in
  sale_future ∈ notified (trace out.2) /\
  (load_fails (calm_env (feed_of [sale_future]) T_2200) "dopedoges" = false ->
   save_fails (calm_env (feed_of [sale_future]) T_2200) "dopedoges" = false ->
   ordinal (utc (T_2200 + 86400000000)) <= watermark (db out.2) "dopedoges").
Proof.
  apply (X6_future_dated_record_is_delivered (calm_env (feed_of [sale_future]) T_2200)
           "dopedoges" dopedoges ∅ [sale_future] sale_future
           (JStr "bought") (JStr "DBuyer12345") (utc (T_2200 + 86400000000))).
  - reflexivity.
  - reflexivity.
  - reflexivity.
  - apply list_elem_of_here.
  - reflexivity.
  - reflexivity.
  - reflexivity.
  - reflexivity.
  - reflexivity.
  - reflexivity.
  - vm_compute. discriminate.
  - vm_compute. reflexivity.
  - vm_compute. reflexivity.
Defined.

(** ** What can end a cycle *)

Lemma well_formed_inv c r :
  well_formed c r = true ->
  exists kvs ts embed price,
    r = JObj kvs /\ sale_date r = Ok ts /\ is_aware ts = true /\
    render c r = Ok (ts, embed, price).
Proof.
  unfold well_formed.
  destruct (sale_date r) as [ts|] eqn:Hts; [|done].
  destruct (render c r) as [[[ts' embed] price]|] eqn:Hr; [|done].
  intros Haw. pose proof (render_date _ _ _ _ _ Hr) as Hts'.
  rewrite Hts in Hts'. injection Hts' as <-.
  destruct r as [| | | | |kvs]; try (by unfold sale_date in Hts).
  by exists kvs, ts, embed, price.
Qed.

Lemma classify_well_formed c last now r :
  well_formed c r = true -> is_aware last = true -> is_aware now = true ->
  exists v, classify last now r = Ok v.
Proof.
  intros (kvs & ts & _ & _ & -> & Hts & Haw & _)%well_formed_inv Hl Hn.
  unfold classify, dt_sub, dt_le. run_M. rewrite Hts.
  rewrite (same_kind_aware ts last Hl), Haw.
  assert (same_kind now ts = true) as ->
    by (unfold same_kind, is_aware in *; by destruct (utcoffset now), (utcoffset ts)).
  cbn.
  destruct (eq_str _ "bought"); cbn; [|by exists NotASale].
  destruct (truthy _); cbn; [|by exists NotASale].
  destruct (timedelta_24h <? _); [by exists TooOld|].
  destruct (_ <=? _); [by exists AlreadyProcessed|by exists Deliver].
Qed.

Lemma loop_well_formed env ch c last now sales : forall acc w,
  Forall (fun r => well_formed c r = true) sales ->
  is_aware last = true -> is_aware now = true -> is_aware acc.1.1 = true ->
  match (foldM (visit env ch c last now) acc sales w).1 with
  | Ok _ => True
  | Raise e => e = HTTPException
  end.
Proof.
  induction sales as [|r sales IH]; intros acc w Hall Hl Hn Ha; [done|].
  apply Forall_cons in Hall as [Hr Hall].
  rewrite foldM_cons, visit_eq.
  destruct (classify_well_formed c last now r Hr Hl Hn) as [v ->].
  destruct v; try (by apply IH).
  rewrite post_sale_to_discord_eq.
  destruct (well_formed_inv c r Hr) as (kvs & ts & embed & price & _ & _ & Haw & ->).
  destruct (send_fails _ _ _); [done|].
  unfold dt_gt. rewrite (same_kind_aware ts acc.1.1 Ha), Haw.
  apply IH; try done. cbn. by destruct (_ <? _).
Qed.

(** X7. Only the channel can end a cycle over a well-formed batch.  When
    every fetched record has a timestamp with an offset and an alert that
    can be built, a cycle raises nothing but the channel's exception,
    whether or not the database answers the load and the save; and when the
    channel accepts every alert, the cycle completes. *)
Theorem X7_only_the_channel_ends_a_cycle env c cfg d items :
  config c = Ok cfg ->
  payload (http_get env (api_url cfg)) = JArr items ->
  Forall (fun r => well_formed c r = true) items ->
  let out := run (check_collection env c) d in
  (forall e, out.1 = Raise e -> e = HTTPException) /\
  ((forall tr embed, send_fails env tr embed = false) -> out.1 = Ok tt).
Proof.
  intros Hc Hp Hall. cbv zeta.
  assert (Hraise : forall e, (run (check_collection env c) d).1 = Raise e ->
                             e = HTTPException).
  { intros e. unfold run. rewrite check_collection_eq, Hc. cbn [db].
    destruct (get_channel env (channel_id cfg)); [|done]. cbv zeta. rewrite Hp.
    destruct (dated_batch_sorts false true items) as (sales & Hs & _).
    { eapply Forall_impl; [exact Hall|]. cbn.
      intros r (_ & ts & _ & _ & _ & Hts & Haw & _)%well_formed_inv. by exists ts. }
    rewrite Hs.
    pose proof (loop_well_formed env (channel_id cfg) c (loaded env d c)
                  (utc (utcnow env c)) sales (loaded env d c, 0%nat, 0%nat)
                  (add {| db := d; trace := [] |} (prologue env c cfg d))) as Hloop.
    destruct (foldM _ _ _ _) as [[acc|e'] w2]; cbn [fst] in *; [done|].
    intros [= <-]. apply Hloop; try done; try apply loaded_aware.
    apply Forall_forall. intros r Hr%(sorted_by_date_elem false items sales r Hs).
    by apply (proj1 (Forall_forall _ _) Hall). }
  split; [exact Hraise|]. intros Hsend.
  destruct (cycle_outcome env c d) as [e He|cfg' Hc' Hch'|cfg' e Hc' Hch' Hs'
    |cfg' sales' evs e Hc' Hch' Hs' Hev Hsv' Hh
    |cfg' sales' evs acc Hc' Hch' Hs' Hev Hsv' Ho Ha Hl]; cbn [fst] in *; try done.
  - specialize (Hraise e eq_refl). subst e. apply config_raises in He. done.
  - specialize (Hraise e eq_refl). subst e. exfalso.
    rewrite Hc in Hc'. injection Hc' as <-. rewrite Hp in Hs'.
    destruct (dated_batch_sorts false true items) as (sales & Hs & _); [|congruence].
    eapply Forall_impl; [exact Hall|]. cbn.
    intros r (_ & ts & _ & _ & _ & Hts & Haw & _)%well_formed_inv. by exists ts.
  - specialize (Hraise e eq_refl).
    destruct (Hh Hraise) as (? & ? & embed & _ & Hf). by rewrite Hsend in Hf.
Qed.

Lemma X7_witness :
  let out := run (check_collection
                    (with_save_fails (fun _ => true)
                       (first_send_fails_env (feed_of [sale_2100; sale_2000]) T_2200))
                    "dopedoges") ∅ in
  (forall e, out.1 = Raise e -> e = HTTPException) /\
  ((forall tr embed,
      send_fails (with_save_fails (fun _ => true)
                    (first_send_fails_env (feed_of [sale_2100; sale_2000]) T_2200))
                 tr embed = false) ->
   out.1 = Ok tt).
Proof.
  apply (X7_only_the_channel_ends_a_cycle
           (with_save_fails (fun _ => true)
              (first_send_fails_env (feed_of [sale_2100; sale_2000]) T_2200))
           "dopedoges" dopedoges ∅ [sale_2100; sale_2000]).
  - reflexivity.
  - reflexivity.
  - repeat constructor.
Defined.

(** ** The watermark store *)



(** ** The commands *)

Lemma post_then_reply env ch c sale msg w :
  exists evs,
    ((post_sale_to_discord env ch c sale ≫= fun _ => ctx_send env msg) w).2
    = add w (Notify c sale :: evs) /\
    notified evs = [] /\ Forall (fun e => forall c', e <> Fetch c') evs.
Proof.
  rewrite bind_eq, post_sale_to_discord_eq.
  destruct (render c sale) as [[[ts embed] price]|].
  - destruct (send_fails _ _ _).
    + exists []. done.
    + unfold ctx_send. destruct (ctx_send_fails env _).
      * exists [ChannelSend ch embed; Print (LogPosted c price)].
        repeat split; try done. by repeat constructor.
      * exists [ChannelSend ch embed; Print (LogPosted c price); CtxSend msg].
        unfold emit, add. cbn. rewrite <- app_assoc.
        repeat split; try done. by repeat constructor.
  - exists []. done.
Qed.

(** X9. A command hands at most one record to the notifier, and only for a
    configured collection whose channel resolves: [post_last_sale] only when
    the feed returned something, [test_sale] only its built-in record.
    [test_sale] never fetches.  For a collection that is not configured,
    all that either command does is send the reply that says so. *)
Theorem X9_commands_notify_at_most_one env c d :
  let last := run (post_last_sale env c) d in
  let test := run (test_sale env c) d in
  (notified (trace last.2) = [] \/
   exists cfg r,
     lookup_config c COLLECTIONS = Some cfg /\ get_channel env (channel_id cfg) = true /\
     truthy (payload (http_get env (api_url cfg))) = true /\
     notified (trace last.2) = [r]) /\
  (notified (trace test.2) = [] \/
   exists cfg,
     lookup_config c COLLECTIONS = Some cfg /\ get_channel env (channel_id cfg) = true /\
     notified (trace test.2) = [test_sale_record c]) /\
  Forall (fun e => forall c', e <> Fetch c') (trace test.2) /\
  (lookup_config c COLLECTIONS = None ->
   Forall (eq (CtxSend "Invalid collection. Use 'dopedoges' or 'minidoges'."))
          (trace last.2 ++ trace test.2)).
Proof.
  cbv zeta.
  assert (Hreply : forall msg,
    trace (ctx_send env msg {| db := d; trace := [] |}).2 = [] \/
    trace (ctx_send env msg {| db := d; trace := [] |}).2 = [CtxSend msg]).
  { intros msg. unfold ctx_send. cbn [trace]. destruct (ctx_send_fails env []); cbn.
    - by left.
    - by right. }
  unfold run, post_last_sale, test_sale.
  destruct (lookup_config c COLLECTIONS) as [cfg|] eqn:Hcfg.
  2:{ destruct (Hreply "Invalid collection. Use 'dopedoges' or 'minidoges'.") as [-> | ->];
        cbn; repeat split; try (by left); by repeat constructor. }
  assert (Hc : config c = Ok cfg) by (unfold config; by rewrite Hcfg).
  destruct (get_channel env (channel_id cfg)) eqn:Hch; cbn [negb].
  2:{ destruct (Hreply ("Error: Channel not found or bot lacks permission for " +:+ c +:+ "."))
        as [-> | ->]; cbn; repeat split; try (by left); by repeat constructor. }
  assert (Hq : notified (fetch_log c (http_get env (api_url cfg))) = []).
  { unfold fetch_log. destruct (http_get env (api_url cfg)) as [|status [data|]]; cbn;
      repeat (case_match; cbn); done. }
  split; [|split; [|split; [|done]]].
  - rewrite bind_eq, fetch_sales_eq, Hc.
    destruct (truthy (payload (http_get env (api_url cfg)))) eqn:Ht; cbn [negb].
    2:{ left. unfold ctx_send, add, emit. cbn [trace db app].
        destruct (ctx_send_fails env _); cbn [snd trace]; rewrite ?notified_app, Hq; done. }
    rewrite bind_eq. unfold lift at 1.
    destruct (sorted_by_date true _) as [[|r rest]|e].
    + left. by cbn.
    + right. exists cfg, r. split; [done|]. split; [done|]. split; [done|].
      unfold lift. cbv beta iota.
      destruct (post_then_reply env (channel_id cfg) c r
                  ("Last sale for " +:+ c +:+ " posted to the sales channel!")
                  (add {| db := d; trace := [] |} (fetch_log c (http_get env (api_url cfg)))))
        as (evs & -> & Hn & _).
      unfold add. cbn [trace db app].
      change (Notify c r :: evs) with ([Notify c r] ++ evs).
      by rewrite !notified_app, Hq, Hn.
    + left. by cbn.
  - right. exists cfg. split; [done|]. split; [done|].
    rewrite bind_eq. unfold print at 1, emit at 1.
    destruct (post_then_reply env (channel_id cfg) c (test_sale_record c)
                ("Test sale posted to the " +:+ c +:+ " sales channel!")
                {| db := d; trace := [] ++ [Print (LogTestMessage c)] |})
      as (evs & Hw & Hn & _).
    cbn [db trace] in *. rewrite Hw. unfold add. cbn [trace db app].
    change (Print (LogTestMessage c) :: Notify c (test_sale_record c) :: evs)
      with ([Print (LogTestMessage c); Notify c (test_sale_record c)] ++ evs).
    by rewrite notified_app, Hn.
  - rewrite bind_eq. unfold print at 1, emit at 1.
    destruct (post_then_reply env (channel_id cfg) c (test_sale_record c)
                ("Test sale posted to the " +:+ c +:+ " sales channel!")
                {| db := d; trace := [] ++ [Print (LogTestMessage c)] |})
      as (evs & Hw & _ & Hf).
    cbn [db trace] in *. rewrite Hw. unfold add. cbn [trace db app].
    by repeat constructor.
Qed.

(** ** The alert *)

Lemma price_zero : exists x, price_doge (JInt 0) = Ok x /\ format_2f x = "0.00".
Proof. eexists. split; vm_compute; reflexivity. Qed.

(** X10. Fields that are absent are defaulted.  For a record with a date
    but no price, no seller address and no buyer address, in a configured
    collection, [post_sale_to_discord] sends an alert showing "0.00 Doge",
    buyer "NewP...NewP" and seller "Myst...Myst", when the channel accepts
    it, and returns the record's date. *)
Theorem X10_absent_fields_are_defaulted env ch c cfg kvs ts d :
  config c = Ok cfg ->
  assoc "price" kvs = None ->
  assoc "sellerAddress" kvs = None ->
  assoc "buyerAddress" kvs = None ->
  sale_date (JObj kvs) = Ok ts ->
  (forall tr embed, send_fails env tr embed = false) ->
  run (post_sale_to_discord env ch c (JObj kvs)) d =
  (Ok ts,
   {| db := d;
      trace := [Notify c (JObj kvs);
                ChannelSend ch {| embed_color := color cfg;
                                  sold_for := "0.00 Doge";
                                  buyer_field := "NewP...NewP";
                                  seller_field := "Myst...Myst" |};
                Print (LogPosted c "0.00")] |}).
Proof.
  intros Hc Hp Hs Hb Hts Hsend. unfold run.
  destruct price_zero as (x & Hx & Hfmt).
  assert (Hr : render c (JObj kvs)
               = Ok (ts, {| embed_color := color cfg; sold_for := "0.00 Doge";
                            buyer_field := "NewP...NewP";
                            seller_field := "Myst...Myst" |}, "0.00")).
  { unfold render. run_M. rewrite Hp. cbn -[price_doge]. rewrite Hx. cbn.
    rewrite Hts. cbn. rewrite Hs, Hb. cbn. rewrite Hc. cbn. by rewrite Hfmt. }
  by rewrite post_sale_to_discord_eq, Hr, Hsend.
Qed.

Lemma X10_witness :
  run (post_sale_to_discord (calm_env ConnectionFailed T_2200) 7 "dopedoges" sale_bare) ∅ =
  (Ok (utc T_2100),
   {| db := ∅;
      trace := [Notify "dopedoges" sale_bare;
                ChannelSend 7 {| embed_color := color dopedoges;
                                 sold_for := "0.00 Doge";
                                 buyer_field := "NewP...NewP";
                                 seller_field := "Myst...Myst" |};
                Print (LogPosted "dopedoges" "0.00")] |}).
Proof.
  apply (X10_absent_fields_are_defaulted (calm_env ConnectionFailed T_2200) 7 "dopedoges"
           dopedoges [("date", JStr "2025-03-11T21:00:00.000Z")] (utc T_2100) ∅).
  - reflexivity.
  - reflexivity.
  - reflexivity.
  - reflexivity.
  - reflexivity.
  - reflexivity.
Defined.

(** X11. Fields that are null are not defaulted.  For a record whose
    price, seller address or buyer address is present with value null,
    [post_sale_to_discord] raises before it reaches the channel: no alert is
    sent, whatever the channel would have answered, and what is raised is
    not the channel's exception. *)
Theorem X11_null_fields_raise env ch c kvs d :
  assoc "price" kvs = Some JNull \/
  assoc "sellerAddress" kvs = Some JNull \/
  assoc "buyerAddress" kvs = Some JNull ->
  let out := run (post_sale_to_discord env ch c (JObj kvs)) d in
  (exists e, out.1 = Raise e /\ e <> HTTPException) /\
  sent (trace out.2) = [] /\ db out.2 = d.
Proof.
  intros Hnull. cbv zeta. unfold run. rewrite post_sale_to_discord_eq.
  assert (Hr : exists e, render c (JObj kvs) = Raise e).
  { unfold render. run_M.
    destruct (assoc "price" kvs) as [p|] eqn:Hp; cbn -[price_doge].
    - destruct (price_doge p) as [x|] eqn:Hx; cbn; [|by eexists].
      destruct (sale_date (JObj kvs)); cbn; [|by eexists].
      destruct Hnull as [[= ->]|[Hs|Hb]]; [done| |].
      + rewrite Hs. cbn. by eexists.
      + destruct (assoc "sellerAddress" kvs) as [sa|]; cbn;
          [destruct (shorten sa); cbn; [|by eexists]|]; rewrite Hb; cbn; by eexists.
    - destruct (price_doge (JInt 0)) as [x|]; cbn; [|by eexists].
      destruct (sale_date (JObj kvs)); cbn; [|by eexists].
      destruct Hnull as [[=]|[Hs|Hb]].
      + rewrite Hs. cbn. by eexists.
      + destruct (assoc "sellerAddress" kvs) as [sa|]; cbn;
          [destruct (shorten sa); cbn; [|by eexists]|]; rewrite Hb; cbn; by eexists. }
  destruct Hr as [e Hr]. rewrite Hr. cbn. split; [|done].
  exists e. split; [done|]. intros ->. by apply render_no_http in Hr.
Qed.

Lemma X11_witness :
  let out := run (post_sale_to_discord (calm_env ConnectionFailed T_2200) 7 "dopedoges"
                    sale_null_seller) ∅ in
  (exists e, out.1 = Raise e /\ e <> HTTPException) /\
  sent (trace out.2) = [] /\ db out.2 = ∅.
Proof.
  apply (X11_null_fields_raise (calm_env ConnectionFailed T_2200) 7 "dopedoges"
           [("status", JStr "bought"); ("buyerAddress", JStr "DBuyer12345");
            ("sellerAddress", JNull); ("date", JStr "2025-03-11T21:00:00.000Z");
            ("price", JInt 100000000)] ∅).
  right. left. reflexivity.
Defined.

(** ** The displayed price *)

Lemma div_rne_near c d x : 0 < d -> 2 * Z.abs x < d -> div_rne (c * d + x) d = c.
Proof.
  intros Hd Hx. unfold div_rne.
  destruct (Z_lt_le_dec x 0).
  - assert (Hq : (c * d + x) / d = c - 1)
      by (symmetry; apply Z.div_unique with (d + x); lia).
    assert (Hr : (c * d + x) mod d = d + x)
      by (symmetry; apply Z.mod_unique with (c - 1); lia).
    rewrite Hq, Hr.
    destruct (Z.ltb_spec (2 * (d + x)) d); [lia|].
    destruct (Z.ltb_spec d (2 * (d + x))); lia.
  - assert (Hq : (c * d + x) / d = c)
      by (symmetry; apply Z.div_unique with x; lia).
    assert (Hr : (c * d + x) mod d = x)
      by (symmetry; apply Z.mod_unique with c; lia).
    rewrite Hq, Hr.
    destruct (Z.ltb_spec (2 * x) d); lia.
Qed.

Lemma div_rne_bounds n d : 0 < d -> 2 * Z.abs (div_rne n d * d - n) <= d.
Proof.
  intros Hd. unfold div_rne.
  pose proof (Z.div_mod n d ltac:(lia)) as Hn.
  pose proof (Z.mod_pos_bound n d Hd) as Hr.
  set (q := n / d) in *. set (r := n mod d) in *.
  destruct (Z.ltb_spec (2 * r) d); [lia|].
  destruct (Z.ltb_spec d (2 * r)); [lia|].
  destruct (Z.even q); lia.
Qed.

(** X12. Prices of a whole number of hundredths are displayed exactly.  A
    raw price of [cents * 1000000] base units, below [2 ^ 46] Doge, divides
    by [100000000] without raising, and [:.2f] prints the quotient as
    [cents / 100], a point and the two digits of [cents mod 100]: the two
    roundings, of the division and of the formatting, cancel. *)
Theorem X12_whole_cents_display_exactly cents :
  0 <= cents < 2 ^ 46 * 100 ->
  exists x, price_doge (JInt (cents * 1000000)) = Ok x /\
            format_2f x = dec (cents / 100) +:+ "." +:+
                          dec (cents / 10 mod 10) +:+ dec (cents mod 10).
Proof.
  intros [H0 Hc]. change (2 ^ 46) with 70368744177664 in Hc.
  destruct (Z.eq_dec cents 0) as [->|Hnz].
  { eexists. split; reflexivity. }
  unfold price_doge, int_truediv.
  set (n := cents * 1000000).
  assert (Hn : 0 < n) by lia.
  destruct (Z.eqb_spec n 0) as [|_]; [lia|].
  rewrite (Z.abs_eq n), (Z.sgn_pos n) by lia.
  change (Z.log2 100000000) with 26.
  assert (Hlog : 0 <= Z.log2 n <= 72).
  { split; [apply Z.log2_nonneg|].
    enough (Z.log2 n < 73) by lia.
    apply Z.log2_lt_pow2; [done|]. change (2 ^ 73) with 9444732965739290427392. lia. }
  set (l := Z.log2 n - 26).
  match goal with
  | |- context [if l >=? 0 then ?a else ?b] => set (l' := if l >=? 0 then a else b)
  end.
  assert (Hl' : l - 1 <= l' <= 45).
  { subst l'. destruct (Z.geb_spec l 0).
    - destruct (Z.eq_dec l 46) as [->|].
      + change (2 ^ 46) with 70368744177664.
        destruct (Z.leb_spec (100000000 * 70368744177664) n); lia.
      + destruct (_ <=? n); lia.
    - destruct (100000000 <=? _); lia. }
  set (e := l' - 52).
  destruct (Z.geb_spec e 0) as [|_]; [lia|].
  rewrite (Z.max_r e 0), Z.pow_0_r, Z.mul_1_r by lia.
  set (s := - e). set (m := div_rne (n * 2 ^ s) 100000000).
  assert (Hs : 128 <= 2 ^ s <= 2 ^ 79).
  { split.
    - change 128 with (2 ^ 7). apply Z.pow_le_mono_r; lia.
    - apply Z.pow_le_mono_r; lia. }
  change (2 ^ 79) with 604462909807314587353088 in Hs.
  pose proof (div_rne_bounds (n * 2 ^ s) 100000000 ltac:(lia)) as Hm.
  fold m in Hm. subst n.
  assert (Hcs : 128 <= cents * 2 ^ s <= 7036874417766400 * 604462909807314587353088).
  { split; [nia|]. apply Z.mul_le_mono_nonneg; lia. }
  set (y := cents * 2 ^ s) in *.
  replace (cents * 1000000 * 2 ^ s) with (1000000 * y) in Hm by (subst y; ring).
  assert (Hx : 2 * Z.abs (m * 100 - y) <= 100) by lia.
  assert (Hbig : 2 ^ 140 <= 2 ^ 1024) by (apply Z.pow_le_mono_r; lia).
  change (2 ^ 140) with 1393796574908163946345982392040522594123776 in Hbig.
  destruct (Z.leb_spec (2 ^ 1024) m) as [|_]; [lia|].
  eexists. split; [reflexivity|].
  unfold format_2f. cbn [fmant fexp]. rewrite Z.mul_1_l, (Z.abs_eq m) by lia.
  destruct (Z.geb_spec e 0) as [|_]; [lia|].
  destruct (Z.ltb_spec m 0) as [|_]; [lia|].
  fold s. replace (m * 100) with (cents * 2 ^ s + (m * 100 - y)) by (subst y; ring).
  rewrite div_rne_near by lia. reflexivity.
Qed.

Lemma X12_witness :
  exists x, price_doge (JInt (1999 * 1000000)) = Ok x /\
            format_2f x = dec (1999 / 100) +:+ "." +:+
                          dec (1999 / 10 mod 10) +:+ dec (1999 mod 10).
Proof.
  apply (X12_whole_cents_display_exactly 1999). split; [lia|reflexivity].
Defined.

(** ** Reading the feed's timestamps *)

Lemma digits_app n acc l v r :
  digits n acc l = Some (v, []) -> digits n acc (l ++ r) = Some (v, r).
Proof.
  revert acc l. induction n as [|n IH]; intros acc l; cbn.
  - by intros [= -> ->].
  - destruct l as [|c t]; [done|]. cbn.
    destruct (digit c) as [a|]; [|done]. cbn. apply IH.
Qed.

Lemma digits_length n acc l v : digits n acc l = Some (v, []) -> length l = n.
Proof.
  revert acc l. induction n as [|n IH]; intros acc l; cbn.
  - by intros [= _ ->].
  - destruct l as [|c t]; [done|]. cbn.
    destruct (digit c) as [a|]; [|done]. cbn. intros H. f_equal. by eapply IH.
Qed.

Lemma digits_plain ch n acc l v :
  digit ch = None -> digits n acc l = Some (v, []) ->
  Forall (fun c => Ascii.eqb c ch = false) l.
Proof.
  intros Hch. revert acc l. induction n as [|n IH]; intros acc l; cbn.
  - by intros [= _ ->].
  - destruct l as [|c t]; [done|]. cbn.
    destruct (digit c) as [a|] eqn:Hc; [|done]. cbn. intros H.
    constructor; [|by eapply IH].
    destruct (Ascii.eqb_spec c ch); [congruence|done].
Qed.

Lemma replace_Z_plain l r :
  Forall (fun c => Ascii.eqb c "Z" = false) l ->
  list_ascii_of_string (replace_Z (string_of_list_ascii (l ++ r)))
  = l ++ list_ascii_of_string (replace_Z (string_of_list_ascii r)).
Proof.
  induction 1 as [|c l Hc _ IH]; [done|].
  change (replace_Z (string_of_list_ascii ((c :: l) ++ r)))
    with (if Ascii.eqb c "Z" then "+00:00" +:+ replace_Z (string_of_list_ascii (l ++ r))
          else String c (replace_Z (string_of_list_ascii (l ++ r)))).
  rewrite Hc. cbn. by rewrite IH.
Qed.

Lemma split_tz_plain l z :
  Forall (fun c => Ascii.eqb c "+" = false) l ->
  Forall (fun c => Ascii.eqb c "-" = false) l ->
  split_tz (l ++ "+"%char :: z) = (l, Some (false, z)).
Proof.
  induction 1 as [|c l Hc _ IH]; [done|].
  intros [Hm Hl]%Forall_cons. cbn.
  by rewrite Hc, Hm, IH.
Qed.

(** X13. Timestamps in the feed's format are read as UTC instants.  For a
    record whose date is written [YYYY-MM-DDTHH:MM:SS.fffZ], with a year
    from 1 on, a month, a day of that month, an hour below 24 and minutes
    and seconds below 60, the date the bot reads is the aware UTC value at
    exactly that instant, the three digits after the point being
    milliseconds. *)
Theorem X13_feed_timestamps_are_utc kvs y mo d hh mi ss ff (Y M D h m s f : Z) :
  digits 4 0 y = Some (Y, []) -> digits 2 0 mo = Some (M, []) ->
  digits 2 0 d = Some (D, []) -> digits 2 0 hh = Some (h, []) ->
  digits 2 0 mi = Some (m, []) -> digits 2 0 ss = Some (s, []) ->
  digits 3 0 ff = Some (f, []) ->
  1 <= Y -> 1 <= M <= 12 -> 1 <= D <= days_in_month Y M ->
  h < 24 -> m < 60 -> s < 60 ->
  assoc "date" kvs =
    Some (JStr (string_of_list_ascii
                  (y ++ "-"%char :: mo ++ "-"%char :: d ++ "T"%char :: hh ++
                   ":"%char :: mi ++ ":"%char :: ss ++ "."%char :: ff ++ ["Z"%char]))) ->
  sale_date (JObj kvs)
  = Ok (utc (days_from_civil Y M D * usec_per_day +
             ((h * 60 + m) * 60 + s) * usec_per_sec + f * 1000)).
Proof.
  intros Hy Hmo Hd Hhh Hmi Hss Hff HY HM HD Hh Hm Hs Hdate.
  set (tm := hh ++ ":"%char :: mi ++ ":"%char :: ss ++ "."%char :: ff).
  set (P := y ++ "-"%char :: mo ++ "-"%char :: d ++ "T"%char :: tm).
  assert (Hplain : forall ch, digit ch = None ->
            Ascii.eqb ":" ch = false -> Ascii.eqb "." ch = false ->
            Forall (fun c => Ascii.eqb c ch = false) tm).
  { intros ch Hch Hc Hp. subst tm.
    repeat first [apply Forall_app; split | apply Forall_cons; split];
      try done; by eapply digits_plain. }
  assert (HZ : Forall (fun c => Ascii.eqb c "Z" = false) P).
  { subst P.
    repeat first [apply Forall_app; split | apply Forall_cons; split];
      try done; try (by eapply digits_plain); by apply Hplain. }
  unfold sale_date. run_M. rewrite Hdate. cbn.
  replace (y ++ "-"%char :: mo ++ "-"%char :: d ++ "T"%char :: hh ++
           ":"%char :: mi ++ ":"%char :: ss ++ "."%char :: ff ++ ["Z"%char])
    with (P ++ ["Z"%char])
    by (subst P tm; repeat (rewrite <- app_assoc; cbn [app]); done).
  unfold fromisoformat. rewrite replace_Z_plain by done.
  change (list_ascii_of_string (replace_Z (string_of_list_ascii ["Z"%char])))
    with ("+"%char :: list_ascii_of_string "00:00").
  assert (Hsplit : split_tz (tm ++ "+"%char :: list_ascii_of_string "00:00")
                   = (tm, Some (false, list_ascii_of_string "00:00")))
    by (apply split_tz_plain; by apply Hplain).
  assert (Htm : hh_mm_ss_ff tm = Some (h, m, s, f * 1000)).
  { subst tm. unfold hh_mm_ss_ff.
    rewrite (digits_app _ _ _ _ _ Hhh).
    cbn -[digits].
    rewrite (digits_app _ _ _ _ _ Hmi).
    cbn -[digits].
    rewrite (digits_app _ _ _ _ _ Hss).
    cbn -[digits].
    unfold fraction. by rewrite (digits_length _ _ _ _ Hff), Hff. }
  cbn in Hsplit.
  clearbody tm. subst P. repeat (rewrite <- app_assoc; cbn [app]).
  unfold parse_date.
  rewrite (digits_app _ _ _ _ _ Hy).
    cbn -[digits].
  rewrite (digits_app _ _ _ _ _ Hmo).
    cbn -[digits].
  rewrite (digits_app _ _ _ _ _ Hd).
    cbn -[digits].
  repeat match goal with
         | |- context [?a <=? ?b] => destruct (Z.leb_spec a b); [|lia]
         end.
  assert (Htz : hh_mm_ss_ff ["0"; "0"; ":"; "0"; "0"]%char = Some (0, 0, 0, 0))
    by (vm_compute; reflexivity).
  cbn -[parse_time]. unfold parse_time. rewrite Hsplit, Htm. cbn -[hh_mm_ss_ff].
  repeat match goal with
         | |- context [?a <? ?b] => destruct (Z.ltb_spec a b); [|lia]
         end.
  rewrite Htz. cbn.
  change (((0 * 60 + 0) * 60 + 0) * usec_per_sec + 0) with 0.
  change (0 <? usec_per_day) with true. cbn.
  unfold utc. do 2 f_equal. lia.
Qed.

Lemma X13_witness :
  sale_date sale_bare
  = Ok (utc (days_from_civil 2025 3 11 * usec_per_day +
             ((21 * 60 + 0) * 60 + 0) * usec_per_sec + 0 * 1000)).
Proof.
  apply (X13_feed_timestamps_are_utc
           [("date", JStr "2025-03-11T21:00:00.000Z")]
           (list_ascii_of_string "2025") (list_ascii_of_string "03")
           (list_ascii_of_string "11") (list_ascii_of_string "21")
           (list_ascii_of_string "00") (list_ascii_of_string "00")
           (list_ascii_of_string "000") 2025 3 11 21 0 0 0).
  - reflexivity.
  - reflexivity.
  - reflexivity.
  - reflexivity.
  - reflexivity.
  - reflexivity.
  - reflexivity.
  - lia.
  - lia.
  - vm_compute. split; discriminate.
  - lia.
  - lia.
  - lia.
  - reflexivity.
Defined.

(** ** No record is delivered twice *)

Lemma cycle_watermark_le env c d :
  load_fails env c = false -> watermark d c <= watermark (cycle env c d) c.
Proof.
  intros Hload. unfold cycle.
  destruct (cycle_saves env c d) as [[_ ->]|(t & _ & _ & _ & Hlt & _ & _ & ->)]; [lia|].
  destruct (save_fails env c); [lia|]. rewrite watermark_insert.
  unfold loaded in Hlt. rewrite Hload in Hlt. unfold watermark. lia.
Qed.

Lemma cycles_watermark_le envs c d :
  Forall (fun e => load_fails e c = false) envs ->
  watermark d c <= watermark (cycles envs c d) c.
Proof.
  intros Hall. revert d. induction Hall as [|env envs Hload _ IH]; intros d; cbn; [lia|].
  pose proof (cycle_watermark_le env c d Hload). specialize (IH (cycle env c d)). lia.
Qed.

(** X14. No record is delivered twice.  When a cycle completes, with its
    load and its save working, no record it handed to the notifier is handed
    over again by a later cycle on that collection, whatever the feed
    returns then and however many cycles lie between, as long as the loads
    of those cycles work. *)
Theorem X14_no_redelivery_in_later_cycles env1 envs env2 c d r :
  load_fails env1 c = false -> save_fails env1 c = false ->
  (run (check_collection env1 c) d).1 = Ok tt ->
  r ∈ notified (trace (run (check_collection env1 c) d).2) ->
  Forall (fun e => load_fails e c = false) (envs ++ [env2]) ->
  r ∉ notified (trace (run (check_collection env2 c) (cycles envs c (cycle env1 c d))).2).
Proof.
  intros Hload1 Hsave1 Hok Hin [Hloads Hload2%Forall_inv]%Forall_app Hagain.
  set (d' := cycles envs c (cycle env1 c d)) in *.
  assert (Hle : sale_instant r <= watermark d' c).
  { pose proof (cycles_watermark_le envs c (cycle env1 c d) Hloads) as Hmono.
    fold d' in Hmono. unfold cycle in Hmono at 1.
    rewrite (cycle_completed_watermark env1 c d Hload1 Hsave1 Hok) in Hmono.
    pose proof (max_from_elem (watermark d c)
      (map sale_instant (notified (trace (run (check_collection env1 c) d).2)))
      (sale_instant r)) as Hmax.
    assert (sale_instant r ∈
      map sale_instant (notified (trace (run (check_collection env1 c) d).2)))
      by (apply list_elem_of_In, in_map; by apply list_elem_of_In).
    specialize (Hmax H). lia. }
  apply cycle_notified, selected_classify in Hagain.
  revert Hagain Hle. unfold selected, sale_instant, loaded, watermark. rewrite Hload2.
  destruct (py_get r "status" JNull) as [st|]; [|done].
  destruct (py_get r "buyerAddress" JNull) as [b|]; [|done].
  destruct (sale_date r) as [ts|]; [|done].
  intros [_ H%Z.ltb_lt]%andb_true_iff. lia.
Qed.

Lemma X14_witness :
  sale_2100 ∉ notified (trace (run (check_collection
                  (calm_env (feed_of [sale_2100; sale_2000]) (T_2200 + 120000000)) "dopedoges")
                (cycles [calm_env (feed_of [sale_2100]) (T_2200 + 60000000)] "dopedoges"
                   (cycle (calm_env (feed_of [sale_2100]) T_2200) "dopedoges" ∅))).2).
Proof.
  apply (X14_no_redelivery_in_later_cycles
           (calm_env (feed_of [sale_2100]) T_2200)
           [calm_env (feed_of [sale_2100]) (T_2200 + 60000000)]
           (calm_env (feed_of [sale_2100; sale_2000]) (T_2200 + 120000000))
           "dopedoges" ∅ sale_2100).
  - reflexivity.
  - reflexivity.
  - vm_compute. reflexivity.
  - vm_compute. apply list_elem_of_here.
  - repeat constructor.
Defined.

(** ** What the cycle reports as skipped *)

Lemma skip_reports_app a b : skip_reports (a ++ b) = skip_reports a ++ skip_reports b.
Proof. apply omap_app. Qed.

Lemma prologue_no_skip_reports env c cfg d : skip_reports (prologue env c cfg d) = [].
Proof.
  unfold prologue, load_log, fetch_log.
  destruct (load_fails env c), (http_get env (api_url cfg)) as [|status [data|]]; cbn;
    repeat (case_match; cbn); done.
Qed.

Lemma loop_no_skip_reports c last now sales evs :
  Forall (loop_event c last now sales) evs -> skip_reports evs = [].
Proof.
  induction 1 as [|e evs He _ IH]; [done|].
  destruct e as [| | | | | |l]; try done. by destruct l.
Qed.

Lemma loop_counts env ch c last now sales : forall acc w acc',
  (foldM (visit env ch c last now) acc sales w).1 = Ok acc' ->
  acc'.1.2 = (acc.1.2 + length (List.filter (judged TooOld last now) sales))%nat /\
  acc'.2 = (acc.2 + length (List.filter (judged AlreadyProcessed last now) sales))%nat /\
  length sales = (length (List.filter (judged NotASale last now) sales) +
                  length (List.filter (judged TooOld last now) sales) +
                  length (List.filter (judged AlreadyProcessed last now) sales) +
                  length (List.filter (judged Deliver last now) sales))%nat.
Proof.
  induction sales as [|sale sales IH]; intros acc w acc'.
  - cbn. intros [= <-]. lia.
  - rewrite foldM_cons, visit_eq. cbn [List.filter].
    assert (Hj : forall v, judged v last now sale =
                           match classify last now sale, v with
                           | Ok NotASale, NotASale | Ok TooOld, TooOld
                           | Ok AlreadyProcessed, AlreadyProcessed
                           | Ok Deliver, Deliver => true
                           | _, _ => false
                           end) by done.
    rewrite !Hj. clear Hj.
    destruct (classify last now sale) as [[| | |]|e]; [| | | |done].
    + intros H. apply IH in H. cbn [length fst snd] in *. lia.
    + intros H. apply IH in H. cbn [length fst snd] in *. lia.
    + intros H. apply IH in H. cbn [length fst snd] in *. lia.
    + destruct (post_sale_to_discord env ch c sale w) as [[ts|e] w']; [|done].
      destruct (dt_gt ts acc.1.1) as [newer|e]; [|done].
      intros H. apply IH in H. cbn [length fst snd] in *. lia.
Qed.

(** X15. The skip reports count what the filter dropped.  In a cycle that
    completes, the lines printed about skipped records are exactly: one
    giving the number of records of the batch dropped as older than 24
    hours, if there is any, then one giving the number dropped as already
    processed, if there is any.  Every record of the batch is counted once:
    not a sale, too old, already processed, or handed to the notifier. *)
Theorem X15_skip_reports_count_the_dropped env c cfg d sales :
  config c = Ok cfg ->
  get_channel env (channel_id cfg) = true ->
  sorted_by_date false (payload (http_get env (api_url cfg))) = Ok sales ->
  (run (check_collection env c) d).1 = Ok tt ->
  let out := run (check_collection env c) d in
  let count v :=
    length (List.filter (judged v (loaded env d c) (utc (utcnow env c))) sales) in
  skip_reports (trace out.2)
  = (if (0 <? count TooOld)%nat then [LogSkippedOlder c (count TooOld)] else []) ++
    (if (0 <? count AlreadyProcessed)%nat
     then [LogSkippedProcessed c (count AlreadyProcessed)] else []) /\
  length (notified (trace out.2)) = count Deliver /\
  length sales
  = (count NotASale + count TooOld + count AlreadyProcessed + count Deliver)%nat.
Proof.
  intros Hc Hch Hs Hok. cbv zeta.
  destruct (cycle_selected env c cfg d sales Hc Hch Hs) as [_ Hsel].
  specialize (Hsel Hok). rewrite Hsel. clear Hsel.
  assert (Hd : List.filter (selected (loaded env d c) (utc (utcnow env c))) sales
               = List.filter (judged Deliver (loaded env d c) (utc (utcnow env c))) sales).
  { apply List.filter_ext. intros r. unfold judged.
    destruct (selected _ _ r) eqn:E.
    - apply selected_classify in E. by rewrite E.
    - destruct (classify _ _ r) as [[| | |]|] eqn:E'; try done.
      apply selected_classify in E'. congruence. }
  rewrite Hd. clear Hd.
  revert Hok. unfold run. rewrite check_collection_eq, Hc, Hch. cbn [db]. cbv zeta.
  rewrite Hs. set (w1 := add _ _).
  destruct (loop_inv env (channel_id cfg) c (loaded env d c) (utc (utcnow env c)) sales
              (loaded env d c, 0%nat, 0%nat) w1) as (evs & Hw & Hev & _ & _).
  pose proof (loop_counts env (channel_id cfg) c (loaded env d c) (utc (utcnow env c)) sales
                (loaded env d c, 0%nat, 0%nat) w1) as Hcount.
  destruct (foldM _ _ _ _) as [[acc|e] w2]; cbn [fst snd] in *; [|done].
  intros _. subst w2. destruct (Hcount acc eq_refl) as (Ho & Hp & Hlen).
  split; [|done].
  unfold w1, add. cbn [db trace]. unfold epilogue.
  rewrite !skip_reports_app, prologue_no_skip_reports,
    (loop_no_skip_reports _ _ _ _ _ Hev), Ho, Hp. cbn [app fst snd Nat.add].
  destruct (0 <? _)%nat, (0 <? _)%nat, (dt_ne acc.1.1 (loaded env d c)); try done;
    unfold save_log; by destruct (save_fails env c).
Qed.

Lemma X15_witness :
  let env := calm_env (feed_of [sale_2100; sale_stale; sale_listed; sale_2000]) T_2200 in
  let out := run (check_collection env "dopedoges") (db_at (T_2100 - 3600000000)) in
  let count v :=
    length (List.filter (judged v (loaded env (db_at (T_2100 - 3600000000)) "dopedoges")
                           (utc (utcnow env "dopedoges")))
              [sale_stale; sale_2000; sale_2100; sale_listed]) in
  skip_reports (trace out.2)
  = (if (0 <? count TooOld)%nat then [LogSkippedOlder "dopedoges" (count TooOld)] else []) ++
    (if (0 <? count AlreadyProcessed)%nat
     then [LogSkippedProcessed "dopedoges" (count AlreadyProcessed)] else []) /\
  length (notified (trace out.2)) = count Deliver /\
  length [sale_stale; sale_2000; sale_2100; sale_listed]
  = (count NotASale + count TooOld + count AlreadyProcessed + count Deliver)%nat.
Proof.
  apply (X15_skip_reports_count_the_dropped
           (calm_env (feed_of [sale_2100; sale_stale; sale_listed; sale_2000]) T_2200)
           "dopedoges" dopedoges (db_at (T_2100 - 3600000000))
           [sale_stale; sale_2000; sale_2100; sale_listed]).
  - reflexivity.
  - reflexivity.
  - vm_compute. reflexivity.
  - vm_compute. reflexivity.
Defined.

(** ** Answers that are not a list of records *)

Lemma sale_date_not_record r : is_record r = false -> sale_date r = Raise AttributeError.
Proof. by destruct r. Qed.

Lemma forallb_false {A} (f : A -> bool) l :
  forallb f l = false -> exists x, x ∈ l /\ f x = false.
Proof.
  induction l as [|x l IH]; cbn; [done|].
  destruct (f x) eqn:Hx; cbn.
  - intros (y & Hy & Hf)%IH. exists y. split; [by apply list_elem_of_further|done].
  - intros _. exists x. split; [apply list_elem_of_here|done].
Qed.

Lemma sorted_by_date_malformed reverse v :
  records_list v = false ->
  (exists e, sorted_by_date reverse v = Raise e) \/
  (py_iter v = Ok [] /\ sorted_by_date reverse v = Ok []).
Proof.
  intros Hv. unfold sorted_by_date. run_M.
  destruct v as [| | |s|items|kvs]; cbn in *; try (left; by eexists).
  - destruct s as [|a s]; [by right|left]. cbn. run_M. by eexists.
  - left. apply forallb_false in Hv as (r & Hr & Hrec).
    destruct (mapR_raises sale_date items r AttributeError Hr) as [e ->];
      [by apply sale_date_not_record|].
    by eexists.
  - destruct kvs as [|kv kvs]; [by right|left]. cbn. run_M. by eexists.
Qed.

(** X16. An answer that is not a list of objects yields no alert.  When the
    value the fetch returns is anything but a JSON list whose members are
    all objects, the cycle hands nothing to the notifier, sends nothing,
    saves nothing and leaves the table as it was, even if some members are
    fresh sales; and if the cycle completes at all, the value was empty. *)
Theorem X16_malformed_answer_delivers_nothing env c cfg d :
  config c = Ok cfg ->
  records_list (payload (http_get env (api_url cfg))) = false ->
  let out := run (check_collection env c) d in
  notified (trace out.2) = [] /\ sent (trace out.2) = [] /\
  saves (trace out.2) = [] /\ db out.2 = d /\
  (get_channel env (channel_id cfg) = true -> out.1 = Ok tt ->
   py_iter (payload (http_get env (api_url cfg))) = Ok []).
Proof.
  intros Hc Hv. cbv zeta.
  destruct (prologue_quiet env c cfg d) as (Hn & Hs & Hsv).
  destruct (get_channel env (channel_id cfg)) eqn:Hch.
  2:{ unfold run. by rewrite check_collection_eq, Hc, Hch. }
  destruct (sorted_by_date_malformed false _ Hv) as [[e He]|[Hi He]].
  - unfold run. rewrite check_collection_eq, Hc, Hch. cbn [db]. cbv zeta. rewrite He.
    cbn [fst snd add trace db app]. by rewrite Hn, Hs, Hsv.
  - rewrite (check_collection_idle env c cfg d [] Hc Hch He) by done.
    cbn [fst snd trace db]. by rewrite notified_app, sent_app, saves_app, Hn, Hs, Hsv.
Qed.

Lemma X16_witness :
  let out := run (check_collection (calm_env feed_with_number T_2200) "dopedoges") ∅ in
  notified (trace out.2) = [] /\ sent (trace out.2) = [] /\
  saves (trace out.2) = [] /\ db out.2 = ∅ /\
  (get_channel (calm_env feed_with_number T_2200) (channel_id dopedoges) = true ->
   out.1 = Ok tt ->
   py_iter (payload (http_get (calm_env feed_with_number T_2200) (api_url dopedoges)))
   = Ok []).
Proof.
  apply (X16_malformed_answer_delivers_nothing (calm_env feed_with_number T_2200)
           "dopedoges" dopedoges ∅).
  - reflexivity.
  - reflexivity.
Defined.
